(** * awssso.ssodriver: the single-sign-on session client

    A shallow embedding of [src/awssso/ssodriver.py].  The class [SSODriver]
    drives a browser through the portal's login form, keeps a pickle file of
    cookies between sessions and classifies a failed login as an alert or a
    request for a multi-factor code.

    The program is a sequence of calls into Selenium, so it is embedded in a
    state-and-exception monad over a world made of
      - the browser, reached only through the [WebDriver] interface below,
      - the file system holding the cookie caches,
      - the chronological trace of the driver calls made so far.
    Python exceptions are the [Raise] outcomes of the monad and a
    [try: ... except (E1, E2): ...] block is [try_except]. *)

From Stdlib Require Import QArith.
From stdpp Require Import base option list gmap strings.

Open Scope string_scope.
Open Scope list_scope.

(** ** Python values, dictionaries, exceptions *)

(** The values a cookie dictionary returned by Selenium holds. *)
Inductive pyval : Type :=
  | PStr (s : string)
  | PInt (z : Z)
  | PBool (b : bool).

#[global] Instance pyval_eq_dec : EqDecision pyval.
Proof. solve_decision. Defined.

(** A cookie is a Python [dict] with string keys. *)
Abbreviation cookie := (gmap string pyval).

(** A [WebElement] is an opaque handle into the page. *)
Inductive WebElement : Type := Element (ref : nat).

#[global] Instance WebElement_eq_dec : EqDecision WebElement.
Proof. solve_decision. Defined.

(** The exceptions the module can meet.  [AlertMessage] and [MFACodeNeeded]
    are the two subclasses of [Error] the module declares; the others are
    Python's and Selenium's. *)
Inductive exn : Type :=
  | TimeoutException
  | NoSuchElementException
  | FileNotFoundError
  | UnpicklingError
  | KeyError (key : string)
  | TypeError
  | AlertMessage (msg : string)
  | MFACodeNeeded (mfa_form : WebElement).

Inductive outcome (A : Type) : Type :=
  | Return (a : A)
  | Raise (e : exn).
Arguments Return {A} a.
Arguments Raise {A} e.

(** ** Locators and wait conditions (selenium.webdriver) *)

Inductive By : Type := ID | CSS_SELECTOR | TAG_NAME.

Inductive condition : Type :=
  | presence_of_element_located (by_ : By) (value : string)
  | visibility_of_element_located (by_ : By) (value : string).

(** What a [WebDriverWait] polls: the whole page or the subtree of an
    element. *)
Inductive context : Type :=
  | Page
  | Within (e : WebElement).

(** The content of a file of the cookie directory: what [pickle.load] would
    read from it.  [pickle.dump] of a list of cookies followed by
    [pickle.load] gives the list back; any other content does not
    deserialise. *)
Inductive file : Type :=
  | Pickled (cookies : list cookie)
  | Garbage.

(** The calls made on the driver and on elements, in the order made. *)
Inductive event : Type :=
  | EGet (url : string)
  | EBack
  | EQuit
  | EGetCookies
  | EAddCookie (c : cookie)
  | EWait (ctx : context) (timeout : nat) (poll : Q) (cond : condition)
  | EFind (parent : WebElement) (css : string)
  | EText (e : WebElement)
  | EClear (e : WebElement)
  | ESendKeys (e : WebElement) (keys : string)
  | EClick (e : WebElement).

(** ** The browser driver boundary

    The operations of Selenium the module calls.  A wait returns the element
    or times out ([None]); [find_element_by_css_selector] returns the element
    or finds none ([None]); both take time, so the browser may have moved on
    when they return.  Navigation and the actions on a located element are
    taken to succeed. *)
Class WebDriver (B : Type) : Type := {
  drv_launch : bool -> B;
  drv_implicitly_wait : nat -> B -> B;
  drv_get : string -> B -> B;
  drv_back : B -> B;
  drv_quit : B -> B;
  drv_get_cookies : B -> list cookie;
  drv_add_cookie : cookie -> B -> B;
  drv_wait : context -> nat -> Q -> condition -> B -> option WebElement * B;
  drv_find_css : WebElement -> string -> B -> option WebElement * B;
  drv_text : WebElement -> B -> string;
  drv_clear : WebElement -> B -> B;
  drv_send_keys : WebElement -> string -> B -> B;
  drv_click : WebElement -> B -> B
}.

(** ** The world and the monad *)

Record world (B : Type) : Type := World {
  browser : B;
  files : gmap string file;
  trace : list event
}.
Arguments World {B} _ _ _.
Arguments browser {B} _.
Arguments files {B} _.
Arguments trace {B} _.

Definition M (B A : Type) : Type := world B -> outcome A * world B.

Definition ret {B A} (a : A) : M B A := fun w => (Return a, w).

Definition raise {B A} (e : exn) : M B A := fun w => (Raise e, w).

Definition bind {B A C} (m : M B A) (k : A -> M B C) : M B C :=
  fun w =>
    match m w with
    | (Return a, w') => k a w'
    | (Raise e, w') => (Raise e, w')
    end.

(** [try: body  except <classes>: handler]: the handler runs in the world
    the body left, and only for the listed exception classes. *)
Definition try_except {B A} (body : M B A) (classes : exn -> bool)
    (handler : M B A) : M B A :=
  fun w =>
    match body w with
    | (Return a, w') => (Return a, w')
    | (Raise e, w') => if classes e then handler w' else (Raise e, w')
    end.

Declare Scope py_scope.
Delimit Scope py_scope with py.
Notation "x <- m ;; k" := (bind m (fun x => k))
  (at level 100, m at next level, right associativity) : py_scope.
Notation "m ;; k" := (bind m (fun _ => k))
  (at level 100, right associativity) : py_scope.
Open Scope py_scope.

Definition is_TimeoutException (e : exn) : bool :=
  match e with TimeoutException => true | _ => false end.

Definition is_NoSuchElementException (e : exn) : bool :=
  match e with NoSuchElementException => true | _ => false end.

Definition is_FileNotFoundError (e : exn) : bool :=
  match e with FileNotFoundError => true | _ => false end.

(** [except (TimeoutException, NoSuchElementException)] *)
Definition timeout_or_no_such_element (e : exn) : bool :=
  is_TimeoutException e || is_NoSuchElementException e.

(** ** Dictionary operations of Python *)

(** [d[k]] *)
Definition getitem {B} (d : cookie) (k : string) : M B pyval :=
  match d !! k with
  | Some v => ret v
  | None => raise (KeyError k)
  end.

(** [k in d] *)
Definition contains (d : cookie) (k : string) : bool :=
  match d !! k with Some _ => true | None => false end.

(** [del d[k]] *)
Definition delitem {B} (d : cookie) (k : string) : M B cookie :=
  match d !! k with
  | Some _ => ret (delete k d)
  | None => raise (KeyError k)
  end.

(** [x not in l] for a list of strings [l] and a dictionary value [x]. *)
Definition not_in (x : pyval) (l : list string) : bool :=
  bool_decide (x ∉ PStr <$> l).

(** Python's truth value of [None] or a string: [None] and [''] are false. *)
Definition truthy (o : option string) : bool :=
  match o with
  | Some s => bool_decide (s ≠ "")
  | None => false
  end.

(** [s.encode()]: a string is kept as its UTF-8 bytes. *)
Definition encode (s : string) : list Byte.byte := String.list_byte_of_string s.

(** ** The class [SSODriver] *)

Record SSODriver : Type := {
  _url : string;
  _cookie_hash : string;
  _cookie_file : option string;
  _poll_frequency : Q
}.

(** The name of the primary authentication cookie. *)
Definition authn : string := "x-amz-sso_authn".

(** The first cookie of a list that carries the given name. *)
Definition find_cookie (name : string) (cookies : list cookie) : option cookie :=
  snd <$> list_find (fun c : cookie => c !! "name" = Some (PStr name)) cookies.

(** A cookie other than the authentication cookie. *)
Definition persistable (c : cookie) : Prop := c !! "name" ≠ Some (PStr authn).

#[global] Instance persistable_dec c : Decision (persistable c).
Proof. unfold persistable. apply _. Defined.

(** A cached record as [add_cookie] receives it: without its [expiry]. *)
Definition stripped (c : cookie) : cookie := delete "expiry" c.

(** A cookie that carries a name, as every cookie Selenium returns does. *)
Definition named (c : cookie) : Prop := is_Some (c !! "name").

#[global] Instance named_dec c : Decision (named c).
Proof. unfold named. apply _. Defined.

Section SSODriver.

Context {B : Type} `{WebDriver B}.

(** [hashlib.sha256(data).hexdigest()], a function of the bytes hashed. *)
Variable sha256_hexdigest : list Byte.byte -> string.

(** *** Calls through the driver boundary, each one recorded in the trace *)

Definition call (ev : event) (f : B -> B) : M B unit :=
  fun w => (Return tt, World (f (browser w)) (files w) (trace w ++ [ev])).

Definition driver_get (url : string) : M B unit := call (EGet url) (drv_get url).
Definition driver_back : M B unit := call EBack drv_back.
Definition driver_quit : M B unit := call EQuit drv_quit.
Definition driver_add_cookie (c : cookie) : M B unit :=
  call (EAddCookie c) (drv_add_cookie c).
Definition element_clear (e : WebElement) : M B unit := call (EClear e) (drv_clear e).
Definition element_send_keys (e : WebElement) (keys : string) : M B unit :=
  call (ESendKeys e keys) (drv_send_keys e keys).
Definition element_click (e : WebElement) : M B unit := call (EClick e) (drv_click e).

Definition driver_get_cookies : M B (list cookie) :=
  fun w => (Return (drv_get_cookies (browser w)),
            World (browser w) (files w) (trace w ++ [EGetCookies])).

(** Selenium's [get_cookie(name)]: the first cookie of [get_cookies()] with
    that name, or [None]. *)
Definition driver_get_cookie (name : string) : M B (option cookie) :=
  cookies <- driver_get_cookies ;;
  ret (find_cookie name cookies).

Definition element_text (e : WebElement) : M B string :=
  fun w => (Return (drv_text e (browser w)),
            World (browser w) (files w) (trace w ++ [EText e])).

(** [WebDriverWait(ctx, timeout, poll_frequency=poll).until(cond)] *)
Definition WebDriverWait_until (ctx : context) (timeout : nat) (poll : Q)
    (cond : condition) : M B WebElement :=
  fun w =>
    let r := drv_wait ctx timeout poll cond (browser w) in
    let w' := World (snd r) (files w) (trace w ++ [EWait ctx timeout poll cond]) in
    match fst r with
    | Some e => (Return e, w')
    | None => (Raise TimeoutException, w')
    end.

(** [parent.find_element_by_css_selector(css)] *)
Definition find_element_by_css_selector (parent : WebElement) (css : string)
    : M B WebElement :=
  fun w =>
    let r := drv_find_css parent css (browser w) in
    let w' := World (snd r) (files w) (trace w ++ [EFind parent css]) in
    match fst r with
    | Some e => (Return e, w')
    | None => (Raise NoSuchElementException, w')
    end.

(** *** Files *)

(** [open(path, 'rb')]: the content of an existing file. *)
Definition open_rb (path : option string) : M B file :=
  match path with
  | None => raise TypeError
  | Some p =>
      fun w =>
        match files w !! p with
        | Some f => (Return f, w)
        | None => (Raise FileNotFoundError, w)
        end
  end.

(** [pickle.load(f)] *)
Definition pickle_load (f : file) : M B (list cookie) :=
  match f with
  | Pickled cookies => ret cookies
  | Garbage => raise UnpicklingError
  end.

(** [pickle.dump(cookies, open(path, 'wb'))]: the file is created or
    overwritten. *)
Definition pickle_dump (cookies : list cookie) (path : option string) : M B unit :=
  match path with
  | None => raise TypeError
  | Some p =>
      fun w => (Return tt, World (browser w) (<[p := Pickled cookies]> (files w)) (trace w))
  end.

(** *** Methods *)

(** [SSODriver.hash(s)], ssodriver.py 56-58 *)
Definition hash (s : string) : string := sha256_hexdigest (encode s).

(** [SSODriver.__init__], ssodriver.py 39-48: the object and the browser it
    launched. *)
Definition __init__ (url username : string) (headless : bool)
    (cookie_dir : option string) : SSODriver * B :=
  let cookie_hash := hash (username +:+ "@" +:+ url) in
  ({| _url := url;
      _cookie_hash := cookie_hash;
      _cookie_file :=
        if truthy cookie_dir
        then Some (default "" cookie_dir +:+ "/" +:+ cookie_hash +:+ ".pkl")
        else None;
      _poll_frequency := 5 # 100 |},
   drv_implicitly_wait 5 (drv_launch headless)).

(** The body of the [for] loop of [_load_cookies], ssodriver.py 63-66. *)
Fixpoint _load_cookies_loop (cookies : list cookie) : M B unit :=
  match cookies with
  | [] => ret tt
  | cookie :: rest =>
      cookie' <- (if contains cookie "expiry"
                  then delitem cookie "expiry"
                  else ret cookie) ;;
      driver_add_cookie cookie' ;;
      _load_cookies_loop rest
  end.

(** [SSODriver._load_cookies], ssodriver.py 60-68 *)
Definition _load_cookies (self : SSODriver) : M B unit :=
  try_except
    (f <- open_rb (_cookie_file self) ;;
     cookies <- pickle_load f ;;
     _load_cookies_loop cookies)
    is_FileNotFoundError
    (ret tt).

Definition exclude : list string := [authn].

(** The [for] loop of [_dump_cookies], ssodriver.py 73-75; [cookies] is the
    list built so far. *)
Fixpoint _dump_cookies_loop (session cookies : list cookie) : M B (list cookie) :=
  match session with
  | [] => ret cookies
  | cookie :: rest =>
      name <- getitem cookie "name" ;;
      if not_in name exclude
      then _dump_cookies_loop rest (cookies ++ [cookie])
      else _dump_cookies_loop rest cookies
  end.

(** [SSODriver._dump_cookies], ssodriver.py 70-76 *)
Definition _dump_cookies (self : SSODriver) : M B unit :=
  session <- driver_get_cookies ;;
  cookies <- _dump_cookies_loop session [] ;;
  pickle_dump cookies (_cookie_file self).

(** [driver = driver or self._driver] *)
Definition driver_or_self (driver : option WebElement) : context :=
  match driver with
  | Some e => Within e
  | None => Page
  end.

(** [SSODriver._find_element_by_id], ssodriver.py 78-82 *)
Definition _find_element_by_id (self : SSODriver) (element_id : string)
    (driver : option WebElement) (timeout : nat) : M B WebElement :=
  WebDriverWait_until (driver_or_self driver) timeout (_poll_frequency self)
    (visibility_of_element_located ID element_id).

(** [SSODriver._find_element_by_css_selector], ssodriver.py 84-88 *)
Definition _find_element_by_css_selector (self : SSODriver) (css_selector : string)
    (driver : option WebElement) (timeout : nat) : M B WebElement :=
  WebDriverWait_until (driver_or_self driver) timeout (_poll_frequency self)
    (visibility_of_element_located CSS_SELECTOR css_selector).

(** [SSODriver._click_element_by_id], ssodriver.py 90-93 *)
Definition _click_element_by_id (self : SSODriver) (element_id : string)
    (driver : option WebElement) (timeout : nat) : M B WebElement :=
  element <- _find_element_by_id self element_id driver timeout ;;
  element_click element ;;
  ret element.

(** [SSODriver.get_token], ssodriver.py 104-112 *)
Definition get_token (self : SSODriver) (restore : bool) : M B (pyval * pyval) :=
  WebDriverWait_until Page 1 (_poll_frequency self)
    (presence_of_element_located TAG_NAME "portal-dashboard") ;;
  driver_get (_url self) ;;
  cookie <- driver_get_cookie authn ;;
  (if restore then driver_back else ret tt) ;;
  match cookie with
  | None => raise TypeError
  | Some c =>
      value <- getitem c "value" ;;
      expiry <- getitem c "expiry" ;;
      ret (value, expiry)
  end.

(** [SSODriver.close], ssodriver.py 114-117 *)
Definition close (self : SSODriver) : M B unit :=
  (if truthy (_cookie_file self) then _dump_cookies self else ret tt) ;;
  driver_quit.

(** [SSODriver.get], ssodriver.py 119-123; the driver it returns is the
    browser of the world. *)
Definition get (self : SSODriver) : M B unit :=
  driver_get (_url self) ;;
  (if truthy (_cookie_file self) then _load_cookies self else ret tt).

(** The four [try] blocks of [SSODriver.login], ssodriver.py 126-132,
    133-138, 139-145 and 146-151. *)
Definition login_username (self : SSODriver) (username : string) : M B unit :=
  try_except
    (wait <- WebDriverWait_until Page 1 (_poll_frequency self)
               (presence_of_element_located ID "username-input") ;;
     el_username <- find_element_by_css_selector wait
                      "div.awsui-input-container > input" ;;
     element_clear el_username ;;
     element_send_keys el_username username)
    timeout_or_no_such_element
    (ret tt).

Definition login_username_submit (self : SSODriver) : M B unit :=
  try_except
    (wait_button <- WebDriverWait_until Page 1 (_poll_frequency self)
                      (presence_of_element_located ID "username-submit-button") ;;
     el_username_submit <- find_element_by_css_selector wait_button "button" ;;
     element_click el_username_submit)
    timeout_or_no_such_element
    (ret tt).

Definition login_password (self : SSODriver) (password : string) : M B unit :=
  try_except
    (wait_password <- WebDriverWait_until Page 1 (_poll_frequency self)
                        (presence_of_element_located ID "password-input") ;;
     el_password <- find_element_by_css_selector wait_password
                      "div.awsui-input-container > input" ;;
     element_clear el_password ;;
     element_send_keys el_password password)
    timeout_or_no_such_element
    (ret tt).

Definition login_password_submit (self : SSODriver) : M B unit :=
  try_except
    (wait_password_button <- WebDriverWait_until Page 1 (_poll_frequency self)
                               (presence_of_element_located ID "password-submit-button") ;;
     el_password_submit <- find_element_by_css_selector wait_password_button "button" ;;
     element_click el_password_submit)
    timeout_or_no_such_element
    (ret tt).

(** [SSODriver.login], ssodriver.py 125-151 *)
Definition login (self : SSODriver) (username password : string) : M B unit :=
  login_username self username ;;
  login_username_submit self ;;
  login_password self password ;;
  login_password_submit self.

(** [SSODriver.check_alert], ssodriver.py 154-162 *)
Definition check_alert (self : SSODriver) : M B unit :=
  try_except
    (alert <- WebDriverWait_until Page 1 (_poll_frequency self)
                (presence_of_element_located ID "alertFrame") ;;
     h4 <- find_element_by_css_selector alert
             "div.a-alert-error > div.a-box-inner > h4" ;;
     error <- element_text h4 ;;
     label <- find_element_by_css_selector alert
                "div.a-alert-error > div.a-box-inner > div.gwt-Label" ;;
     message <- element_text label ;;
     raise (AlertMessage (error +:+ ": " +:+ message)))
    timeout_or_no_such_element
    (ret tt).

(** [SSODriver.check_mfa], ssodriver.py 164-170 *)
Definition check_mfa (self : SSODriver) : M B unit :=
  try_except
    (mfa <- WebDriverWait_until Page 1 (_poll_frequency self)
              (presence_of_element_located TAG_NAME "form") ;;
     raise (MFACodeNeeded mfa))
    is_TimeoutException
    (ret tt).

(** [SSODriver.refresh_token], ssodriver.py 95-102.  The function returns
    the token, or [None] when the handler runs to its end. *)
Definition refresh_token (self : SSODriver) (username password : string)
    (restore : bool) : M B (option (pyval * pyval)) :=
  get self ;;
  login self username password ;;
  try_except
    (token <- get_token self restore ;; ret (Some token))
    is_TimeoutException
    (check_alert self ;;
     check_mfa self ;;
     ret None).

(** [SSODriver.send_mfa], ssodriver.py 172-178 *)
Definition send_mfa (self : SSODriver) (mfa_form : WebElement) (mfacode : string)
    (trusted_device : bool) : M B unit :=
  el_mfacode <- _find_element_by_css_selector self
                  "input.awsui-input-type-number" (Some mfa_form) 10 ;;
  el_signin <- _find_element_by_css_selector self
                 "button.awsui-button-variant-primary" (Some mfa_form) 10 ;;
  element_clear el_mfacode ;;
  element_send_keys el_mfacode mfacode ;;
  element_click el_signin.


(** *** The steps of [login] in the specification's words

    "Best-effort fill of up to four optional page elements, each located
    with a short timeout; absence or timeout of any single element is
    silently ignored."  A step looks its element up and acts on it when it
    is there; these are total functions on worlds, to be compared with
    [login]. *)

Definition looked_up (self : SSODriver) (element_id : string) (w : world B) : world B :=
  let cond := presence_of_element_located ID element_id in
  World (snd (drv_wait Page 1 (_poll_frequency self) cond (browser w))) (files w)
        (trace w ++ [EWait Page 1 (_poll_frequency self) cond]).

Definition searched (box : WebElement) (css : string) (w : world B) : world B :=
  World (snd (drv_find_css box css (browser w))) (files w)
        (trace w ++ [EFind box css]).

Definition fill_if_present (self : SSODriver) (element_id css text : string)
    (w : world B) : world B :=
  let cond := presence_of_element_located ID element_id in
  let w1 := looked_up self element_id w in
  match fst (drv_wait Page 1 (_poll_frequency self) cond (browser w)) with
  | None => w1
  | Some box =>
      let w2 := searched box css w1 in
      match fst (drv_find_css box css (browser w1)) with
      | None => w2
      | Some input =>
          World (drv_send_keys input text (drv_clear input (browser w2))) (files w)
                ((trace w2 ++ [EClear input]) ++ [ESendKeys input text])
      end
  end.

Definition click_if_present (self : SSODriver) (element_id css : string)
    (w : world B) : world B :=
  let cond := presence_of_element_located ID element_id in
  let w1 := looked_up self element_id w in
  match fst (drv_wait Page 1 (_poll_frequency self) cond (browser w)) with
  | None => w1
  | Some box =>
      let w2 := searched box css w1 in
      match fst (drv_find_css box css (browser w1)) with
      | None => w2
      | Some button =>
          World (drv_click button (browser w2)) (files w) (trace w2 ++ [EClick button])
      end
  end.

(** *** Reading a trace *)

(** The cookies handed to [add_cookie], in order. *)
Definition injected (tr : list event) : list cookie :=
  omap (fun ev => match ev with EAddCookie c => Some c | _ => None end) tr.

(** Two distinct inputs with the same digest. *)
Definition collision (x y : list Byte.byte) : Prop :=
  x ≠ y ∧ sha256_hexdigest x = sha256_hexdigest y.

(** The waits made, in order: what was polled, for how long, for what. *)
Definition waits (tr : list event) : list (context * nat * condition) :=
  omap (fun ev => match ev with
                  | EWait ctx timeout _ cond => Some (ctx, timeout, cond)
                  | _ => None
                  end) tr.

(** The texts typed into elements, in order. *)
Definition keys_sent (tr : list event) : list string :=
  omap (fun ev => match ev with ESendKeys _ keys => Some keys | _ => None end) tr.

(** The calls that look at or act on the elements of the page; the others
    navigate, handle cookies or end the session. *)
Definition on_page (ev : event) : bool :=
  match ev with
  | EWait _ _ _ _ | EFind _ _ | EText _ | EClear _ | ESendKeys _ _ | EClick _ => true
  | EGet _ | EBack | EQuit | EGetCookies | EAddCookie _ => false
  end.

(** A computation that leaves the file system as it found it. *)
Definition keeps_files {A} (m : M B A) : Prop :=
  ∀ w, files (snd (m w)) = files w.

(** *** The context manager *)



(** The last line of [get_token], ssodriver.py 112, on what [get_cookie]
    returned: [(cookie['value'], cookie['expiry'])]. *)
Definition subscript_token (cookie : option cookie) : outcome (pyval * pyval) :=
  match cookie with
  | None => Raise TypeError
  | Some c =>
      match c !! "value" with
      | None => Raise (KeyError "value")
      | Some value =>
          match c !! "expiry" with
          | None => Raise (KeyError "expiry")
          | Some expiry => Return (value, expiry)
          end
      end
  end.

End SSODriver.

(** ** A simulated portal

    A small browser-and-site simulator implementing [WebDriver]: the login
    form of the portal as a state machine over its screens.  It gives the
    general theorems concrete sessions to run on. *)

Inductive screen : Type :=
  | Blank            (* no page loaded *)
  | UsernameForm
  | PasswordForm
  | Dashboard
  | AlertBanner      (* alert frame with an error title and message *)
  | AlertFrameOnly   (* alert frame present, nothing in it *)
  | MfaPrompt
  | Stalled.         (* a page showing none of the expected elements *)

Record portal : Type := {
  shown : screen;
  username_typed : string;
  password_typed : string;
  code_typed : string;
  mfa_enabled : bool;
  jar : list cookie
}.

Definition sim_password : string := "hunter2".
Definition sim_code : string := "123456".

Definition sim_authn_cookie : cookie :=
  {[ "name" := PStr authn; "value" := PStr "AAAA-token";
     "domain" := PStr "portal.example"; "path" := PStr "/";
     "expiry" := PInt 1700000000 ]}.

Definition sim_user_cookie : cookie :=
  {[ "name" := PStr "aws-userInfo"; "value" := PStr "alice";
     "domain" := PStr "portal.example"; "path" := PStr "/";
     "expiry" := PInt 1800000000 ]}.

Definition sim_session_cookie : cookie :=
  {[ "name" := PStr "JSESSIONID"; "value" := PStr "s1";
     "domain" := PStr "portal.example"; "path" := PStr "/" ]}.

Definition sim_show (s : screen) (p : portal) : portal :=
  {| shown := s; username_typed := username_typed p;
     password_typed := password_typed p; code_typed := code_typed p;
     mfa_enabled := mfa_enabled p; jar := jar p |}.

Definition sim_sign_in (p : portal) : portal :=
  {| shown := Dashboard; username_typed := username_typed p;
     password_typed := password_typed p; code_typed := code_typed p;
     mfa_enabled := mfa_enabled p;
     jar := jar p ++ [sim_authn_cookie; sim_user_cookie] |}.

Definition sim_launch (headless : bool) : portal :=
  {| shown := Blank; username_typed := ""; password_typed := "";
     code_typed := ""; mfa_enabled := false; jar := [] |}.

Definition sim_get (url : string) (p : portal) : portal :=
  match shown p with
  | Blank => sim_show UsernameForm p
  | _ => p
  end.

(** Element handles of the simulated pages. *)
Definition el_username_box := Element 1.
Definition el_username_input := Element 2.
Definition el_username_submit_box := Element 3.
Definition el_username_submit := Element 4.
Definition el_password_box := Element 5.
Definition el_password_input := Element 6.
Definition el_password_submit_box := Element 7.
Definition el_password_submit := Element 8.
Definition el_dashboard := Element 9.
Definition el_alert_frame := Element 10.
Definition el_alert_title := Element 11.
Definition el_alert_label := Element 12.
Definition el_form := Element 13.
Definition el_code_input := Element 14.
Definition el_sign_in := Element 15.

Definition sim_locate (s : screen) (ctx : context) (cond : condition)
    : option WebElement :=
  match s, ctx, cond with
  | UsernameForm, Page, presence_of_element_located ID v =>
      if String.eqb v "username-input" then Some el_username_box
      else if String.eqb v "username-submit-button" then Some el_username_submit_box
      else None
  | PasswordForm, Page, presence_of_element_located ID v =>
      if String.eqb v "password-input" then Some el_password_box
      else if String.eqb v "password-submit-button" then Some el_password_submit_box
      else None
  | (UsernameForm | PasswordForm | MfaPrompt), Page,
    presence_of_element_located TAG_NAME v =>
      if String.eqb v "form" then Some el_form else None
  | Dashboard, Page, presence_of_element_located TAG_NAME v =>
      if String.eqb v "portal-dashboard" then Some el_dashboard else None
  | (AlertBanner | AlertFrameOnly), Page, presence_of_element_located ID v =>
      if String.eqb v "alertFrame" then Some el_alert_frame else None
  | MfaPrompt, Within (Element 13), visibility_of_element_located CSS_SELECTOR v =>
      if String.eqb v "input.awsui-input-type-number" then Some el_code_input
      else if String.eqb v "button.awsui-button-variant-primary" then Some el_sign_in
      else None
  | _, _, _ => None
  end.

Definition sim_wait (ctx : context) (timeout : nat) (poll : Q) (cond : condition)
    (p : portal) : option WebElement * portal :=
  (sim_locate (shown p) ctx cond, p).

Definition sim_find_css (parent : WebElement) (css : string) (p : portal)
    : option WebElement * portal :=
  (match shown p, parent with
   | UsernameForm, Element 1 =>
       if String.eqb css "div.awsui-input-container > input"
       then Some el_username_input else None
   | UsernameForm, Element 3 =>
       if String.eqb css "button" then Some el_username_submit else None
   | PasswordForm, Element 5 =>
       if String.eqb css "div.awsui-input-container > input"
       then Some el_password_input else None
   | PasswordForm, Element 7 =>
       if String.eqb css "button" then Some el_password_submit else None
   | AlertBanner, Element 10 =>
       if String.eqb css "div.a-alert-error > div.a-box-inner > h4"
       then Some el_alert_title
       else if String.eqb css "div.a-alert-error > div.a-box-inner > div.gwt-Label"
       then Some el_alert_label else None
   | _, _ => None
   end, p).

Definition sim_text (e : WebElement) (p : portal) : string :=
  match shown p, e with
  | AlertBanner, Element 11 => "Incorrect username or password."
  | AlertBanner, Element 12 => "Try again."
  | _, _ => ""
  end.

Definition sim_set_typed (e : WebElement) (f : string -> string) (p : portal) : portal :=
  let upd (target : nat) (s : string) :=
    match e with Element n => if Nat.eqb n target then f s else s end in
  {| shown := shown p;
     username_typed := upd 2 (username_typed p);
     password_typed := upd 6 (password_typed p);
     code_typed := upd 14 (code_typed p);
     mfa_enabled := mfa_enabled p; jar := jar p |}.

Definition sim_click (e : WebElement) (p : portal) : portal :=
  match shown p, e with
  | UsernameForm, Element 4 => sim_show PasswordForm p
  | PasswordForm, Element 8 =>
      if String.eqb (password_typed p) sim_password
      then if mfa_enabled p then sim_show MfaPrompt p else sim_sign_in p
      else sim_show AlertBanner p
  | MfaPrompt, Element 15 =>
      if String.eqb (code_typed p) sim_code
      then sim_sign_in p else sim_show AlertBanner p
  | _, _ => p
  end.

Definition sim_add_cookie (c : cookie) (p : portal) : portal :=
  {| shown := shown p; username_typed := username_typed p;
     password_typed := password_typed p; code_typed := code_typed p;
     mfa_enabled := mfa_enabled p; jar := jar p ++ [c] |}.

#[global] Instance sim_driver : WebDriver portal := {
  drv_launch := sim_launch;
  drv_implicitly_wait := fun _ p => p;
  drv_get := sim_get;
  drv_back := fun p => p;
  drv_quit := sim_show Blank;
  drv_get_cookies := jar;
  drv_add_cookie := sim_add_cookie;
  drv_wait := sim_wait;
  drv_find_css := sim_find_css;
  drv_text := sim_text;
  drv_clear := fun e => sim_set_typed e (fun _ => "");
  drv_send_keys := fun e keys => sim_set_typed e (fun s => s +:+ keys);
  drv_click := sim_click
}.

(** A stand-in digest for running the simulator: the bytes themselves. *)
Definition sim_digest (data : list Byte.byte) : string :=
  String.string_of_list_byte data.

(** A digest that collides everywhere. *)
Definition sim_constant_digest (data : list Byte.byte) : string := "00".

Definition sim_self : SSODriver :=
  fst (__init__ sim_digest "https://portal.example/start" "alice" true (Some "/tmp/c")).

Definition sim_self_nocache : SSODriver :=
  fst (__init__ sim_digest "https://portal.example/start" "alice" true None).

Definition sim_world (p : portal) (fs : gmap string file) : world portal :=
  World p fs [].

Definition sim_at (s : screen) : portal := sim_show s (sim_launch true).

Definition sim_cache_path : string := "/tmp/c/alice@https://portal.example/start.pkl".

Definition sim_fresh : world portal := sim_world (sim_launch true) ∅.

Definition sim_signed_in : world portal := sim_world (sim_sign_in (sim_launch true)) ∅.

(** A new session that finds a cache file of two records, one with an
    [expiry] and one without. *)
Definition sim_cached : world portal :=
  sim_world (sim_launch true)
    {[ sim_cache_path := Pickled [sim_user_cookie; sim_session_cookie] ]}.

(** A new session that finds a cache file that is not a pickle. *)
Definition sim_corrupt : world portal :=
  sim_world (sim_launch true) {[ sim_cache_path := Garbage ]}.

(** A session whose cookie jar holds a record without a name. *)
Definition sim_nameless : world portal :=
  sim_world (sim_add_cookie (delete "name" sim_user_cookie)
               (sim_add_cookie sim_session_cookie (sim_launch true))) ∅.

(** The portal asking for the second factor. *)
Definition sim_mfa_prompt : world portal := sim_world (sim_at MfaPrompt) ∅.

(** The dashboard shown to a browser that holds no cookie at all. *)
Definition sim_dashboard_bare : world portal := sim_world (sim_at Dashboard) ∅.

(** The dashboard with the authentication cookie as a session cookie: no
    [expiry]. *)
Definition sim_dashboard_session : world portal :=
  sim_world (sim_add_cookie (delete "expiry" sim_authn_cookie) (sim_at Dashboard)) ∅.


(** A form in which the code field shows and the sign-in button never
    does: a driver without state. *)
#[global] Instance half_form_driver : WebDriver unit := {
  drv_launch := fun _ => tt;
  drv_implicitly_wait := fun _ b => b;
  drv_get := fun _ b => b;
  drv_back := fun b => b;
  drv_quit := fun b => b;
  drv_get_cookies := fun _ => [];
  drv_add_cookie := fun _ b => b;
  drv_wait := fun _ _ _ cond b =>
    (match cond with
     | visibility_of_element_located CSS_SELECTOR v =>
         if String.eqb v "input.awsui-input-type-number" then Some el_code_input
         else None
     | _ => None
     end, b);
  drv_find_css := fun _ _ b => (None, b);
  drv_text := fun _ _ => "";
  drv_clear := fun _ b => b;
  drv_send_keys := fun _ _ b => b;
  drv_click := fun _ b => b
}.

(** * Properties *)

Section Facts.

Context {B : Type} `{WebDriver B}.

Implicit Types (self : SSODriver) (w : world B) (c : cookie).

(** ** The monad *)

Lemma bind_Return {A C} (m : M B A) (k : A -> M B C) w a w' :
  m w = (Return a, w') -> bind m k w = k a w'.
Proof. intros E. unfold bind. by rewrite E. Qed.

Lemma bind_Raise {A C} (m : M B A) (k : A -> M B C) w e w' :
  m w = (Raise e, w') -> bind m k w = (Raise e, w').
Proof. intros E. unfold bind. by rewrite E. Qed.

Lemma try_except_Return {A} (body handler : M B A) classes w a w' :
  body w = (Return a, w') -> try_except body classes handler w = (Return a, w').
Proof. intros E. unfold try_except. by rewrite E. Qed.

Lemma try_except_caught {A} (body handler : M B A) classes w e w' :
  body w = (Raise e, w') -> classes e = true ->
  try_except body classes handler w = handler w'.
Proof. intros E C. unfold try_except. by rewrite E, C. Qed.

Lemma try_except_uncaught {A} (body handler : M B A) classes w e w' :
  body w = (Raise e, w') -> classes e = false ->
  try_except body classes handler w = (Raise e, w').
Proof. intros E C. unfold try_except. by rewrite E, C. Qed.

(** ** The cookie cache *)

Lemma not_in_exclude c v :
  c !! "name" = Some v -> not_in v exclude = bool_decide (persistable c).
Proof.
  intros E. unfold not_in, exclude. apply bool_decide_ext.
  unfold persistable. simpl. rewrite list_elem_of_singleton, E.
  split; intros N Q; apply N; congruence.
Qed.

(** The loop of [_dump_cookies] appends the cookies it keeps, in order. *)
Lemma _dump_cookies_loop_filter (session acc : list cookie) w :
  Forall named session ->
  _dump_cookies_loop session acc w = (Return (acc ++ filter persistable session), w).
Proof.
  intros Hn. revert acc. induction Hn as [|c rest [v Hv] _ IH]; intros acc.
  - simpl. by rewrite app_nil_r.
  - simpl. unfold getitem at 1. rewrite Hv.
    erewrite bind_Return by reflexivity.
    rewrite (not_in_exclude c v Hv). rewrite filter_cons.
    case_bool_decide as P.
    + rewrite decide_True by done. rewrite IH. by rewrite <- app_assoc.
    + rewrite decide_False by done. apply IH.
Qed.

Lemma _dump_cookies_writes self w p :
  _cookie_file self = Some p -> Forall named (drv_get_cookies (browser w)) ->
  _dump_cookies self w =
    (Return tt,
     World (browser w)
           (<[p := Pickled (filter persistable (drv_get_cookies (browser w)))]> (files w))
           (trace w ++ [EGetCookies])).
Proof.
  intros Hp Hn. unfold _dump_cookies.
  erewrite bind_Return by reflexivity.
  erewrite bind_Return by (by apply _dump_cookies_loop_filter).
  by rewrite Hp.
Qed.

Lemma _load_cookies_loop_injects (cookies : list cookie) w :
  _load_cookies_loop cookies w =
    (Return tt,
     World (foldl (fun b c => drv_add_cookie c b) (browser w) (stripped <$> cookies))
           (files w)
           (trace w ++ (EAddCookie <$> (stripped <$> cookies)))).
Proof.
  revert w. induction cookies as [|c rest IH]; intros w.
  - simpl. rewrite app_nil_r. by destruct w.
  - simpl. unfold contains, delitem.
    destruct (c !! "expiry") as [v|] eqn:E.
    + erewrite bind_Return by reflexivity.
      erewrite bind_Return by reflexivity.
      rewrite IH. simpl. by rewrite <- app_assoc.
    + erewrite bind_Return by reflexivity.
      erewrite bind_Return by reflexivity.
      rewrite IH. simpl.
      replace (stripped c) with c by (unfold stripped; by rewrite delete_id).
      by rewrite <- app_assoc.
Qed.

Lemma injected_app (t1 t2 : list event) :
  injected (t1 ++ t2) = injected t1 ++ injected t2.
Proof. apply omap_app. Qed.

Lemma injected_add_cookies (cookies : list cookie) :
  injected (EAddCookie <$> cookies) = cookies.
Proof. induction cookies as [|c l IH]; simpl; [done | by f_equal]. Qed.

Lemma truthy_Some p : p ≠ "" -> truthy (Some p) = true.
Proof. intros N. simpl. by rewrite bool_decide_eq_true. Qed.

Lemma _load_cookies_cached self w p cookies :
  _cookie_file self = Some p -> files w !! p = Some (Pickled cookies) ->
  _load_cookies self w = _load_cookies_loop cookies w.
Proof.
  intros Hp Hf. unfold _load_cookies, open_rb. rewrite Hp.
  rewrite _load_cookies_loop_injects.
  apply try_except_Return.
  erewrite bind_Return by (by rewrite Hf).
  erewrite bind_Return by reflexivity.
  apply _load_cookies_loop_injects.
Qed.

Lemma _load_cookies_missing self w p :
  _cookie_file self = Some p -> files w !! p = None ->
  _load_cookies self w = (Return tt, w).
Proof.
  intros Hp Hf. unfold _load_cookies, open_rb. rewrite Hp.
  eapply try_except_caught; [apply bind_Raise; by rewrite Hf | reflexivity].
Qed.

Lemma _load_cookies_garbage self w p :
  _cookie_file self = Some p -> files w !! p = Some Garbage ->
  _load_cookies self w = (Raise UnpicklingError, w).
Proof.
  intros Hp Hf. unfold _load_cookies, open_rb. rewrite Hp.
  eapply try_except_uncaught; [|reflexivity].
  erewrite bind_Return by (by rewrite Hf).
  by apply bind_Raise.
Qed.

Lemma close_writes self w p :
  _cookie_file self = Some p -> p ≠ "" ->
  Forall named (drv_get_cookies (browser w)) ->
  close self w =
    (Return tt,
     World (drv_quit (browser w))
           (<[p := Pickled (filter persistable (drv_get_cookies (browser w)))]> (files w))
           ((trace w ++ [EGetCookies]) ++ [EQuit])).
Proof.
  intros Hp Hne Hn. unfold close. rewrite Hp, (truthy_Some p Hne).
  erewrite bind_Return by (by apply _dump_cookies_writes).
  reflexivity.
Qed.

Lemma get_navigates self w :
  get self w =
    (if truthy (_cookie_file self) then _load_cookies self else ret tt)
      (World (drv_get (_url self) (browser w)) (files w) (trace w ++ [EGet (_url self)])).
Proof. reflexivity. Qed.

Lemma stripped_no_expiry c : stripped c !! "expiry" = None.
Proof. apply lookup_delete_eq. Qed.

Lemma stripped_other_fields c k : k ≠ "expiry" -> stripped c !! k = c !! k.
Proof. intros N. unfold stripped. by rewrite lookup_delete_ne. Qed.

(** C2. When a cookie cache is configured, the cookie list [close()] writes
    to it never holds a cookie named x-amz-sso_authn, and every other cookie
    of the live session is written (in the session's order). *)
Theorem close_never_persists_authn self w p :
  _cookie_file self = Some p -> p ≠ "" ->
  Forall named (drv_get_cookies (browser w)) ->
  ∃ written,
    fst (close self w) = Return tt ∧
    files (snd (close self w)) !! p = Some (Pickled written) ∧
    (∀ c, c ∈ written -> c !! "name" ≠ Some (PStr authn)) ∧
    (∀ c, c ∈ drv_get_cookies (browser w) ->
          c !! "name" ≠ Some (PStr authn) -> c ∈ written) ∧
    written = filter persistable (drv_get_cookies (browser w)).
Proof.
  intros Hp Hne Hn. eexists. rewrite (close_writes self w p Hp Hne Hn). simpl.
  split; [reflexivity|]. split; [apply lookup_insert_eq|].
  split; [|split; [|reflexivity]].
  - intros c Hc. by apply list_elem_of_filter in Hc as [Hc _].
  - intros c Hc Hname. by apply list_elem_of_filter.
Qed.

(** C3 (amended). The cache file holds every cookie of the session other
    than the authentication cookie, each record unchanged, its [expiry]
    included; [expiry] is dropped when the cache is loaded: [get()] of a
    session that finds this file injects each record without [expiry] and
    with every other field as it was. *)
Theorem cookie_cache_round_trip self w w2 p :
  _cookie_file self = Some p -> p ≠ "" ->
  Forall named (drv_get_cookies (browser w)) ->
  files w2 = files (snd (close self w)) ->
  let kept := filter persistable (drv_get_cookies (browser w)) in
  files (snd (close self w)) !! p = Some (Pickled kept) ∧
  fst (get self w2) = Return tt ∧
  injected (trace (snd (get self w2))) = injected (trace w2) ++ (stripped <$> kept) ∧
  (∀ c, c ∈ kept ->
     stripped c !! "expiry" = None ∧
     ∀ k, k ≠ "expiry" -> stripped c !! k = c !! k).
Proof.
  intros Hp Hne Hn Hfs kept.
  assert (Hfile : files (snd (close self w)) !! p = Some (Pickled kept)).
  { rewrite (close_writes self w p Hp Hne Hn). simpl. apply lookup_insert_eq. }
  split; [exact Hfile|].
  rewrite get_navigates, Hp, (truthy_Some p Hne).
  erewrite _load_cookies_cached; [|exact Hp|simpl; rewrite Hfs; exact Hfile].
  rewrite _load_cookies_loop_injects. simpl.
  split; [reflexivity|]. split.
  - rewrite !injected_app, injected_add_cookies. simpl. by rewrite app_nil_r.
  - intros c _. split; [apply stripped_no_expiry|apply stripped_other_fields].
Qed.

(** C7. With a cache file of cookie records, with or without [expiry],
    [_load_cookies] and [get()] return normally and inject every record
    with [expiry] removed (a record without one is injected as it is);
    with no cache file they return normally and inject nothing. *)
Theorem load_cookies_never_errors self w p :
  _cookie_file self = Some p -> p ≠ "" ->
  (∀ cookies, files w !! p = Some (Pickled cookies) ->
     fst (_load_cookies self w) = Return tt ∧
     fst (get self w) = Return tt ∧
     injected (trace (snd (get self w))) = injected (trace w) ++ (stripped <$> cookies) ∧
     Forall (fun c => c !! "expiry" = None) (stripped <$> cookies) ∧
     (∀ c, c !! "expiry" = None -> stripped c = c)) ∧
  (files w !! p = None ->
     _load_cookies self w = (Return tt, w) ∧
     fst (get self w) = Return tt ∧
     injected (trace (snd (get self w))) = injected (trace w) ∧
     browser (snd (get self w)) = drv_get (_url self) (browser w)).
Proof.
  intros Hp Hne. split.
  - intros cookies Hf. split; [|split; [|split; [|split]]].
    + by rewrite (_load_cookies_cached self w p cookies Hp Hf),
        _load_cookies_loop_injects.
    + rewrite get_navigates, Hp, (truthy_Some p Hne).
      by erewrite _load_cookies_cached, _load_cookies_loop_injects.
    + rewrite get_navigates, Hp, (truthy_Some p Hne).
      erewrite _load_cookies_cached, _load_cookies_loop_injects by done.
      simpl. rewrite !injected_app, injected_add_cookies. simpl.
      by rewrite app_nil_r.
    + apply Forall_fmap, Forall_forall. intros c _. apply stripped_no_expiry.
    + intros c E. unfold stripped. by rewrite delete_id.
  - intros Hf. split; [by apply _load_cookies_missing with p|].
    rewrite get_navigates, Hp, (truthy_Some p Hne).
    erewrite _load_cookies_missing by done. simpl.
    split; [done|]. split; [|done].
    rewrite injected_app. simpl. by rewrite app_nil_r.
Qed.

(** C10. A cache file that exists but does not deserialise is not treated
    as a missing one: the error of [pickle.load] leaves [_load_cookies] and
    [get()], and no cookie is injected. *)
Theorem get_propagates_unreadable_cache self w p :
  _cookie_file self = Some p -> p ≠ "" ->
  files w !! p = Some Garbage ->
  fst (_load_cookies self w) = Raise UnpicklingError ∧
  fst (get self w) = Raise UnpicklingError ∧
  injected (trace (snd (get self w))) = injected (trace w) ∧
  ∀ username password restore,
    fst (refresh_token self username password restore w) = Raise UnpicklingError.
Proof.
  intros Hp Hne Hf.
  assert (Hget : get self w =
    (Raise UnpicklingError,
     World (drv_get (_url self) (browser w)) (files w) (trace w ++ [EGet (_url self)]))).
  { rewrite get_navigates, Hp, (truthy_Some p Hne).
    by erewrite _load_cookies_garbage. }
  split; [by erewrite _load_cookies_garbage|].
  rewrite Hget. simpl. split; [done|]. split.
  - rewrite injected_app. simpl. by rewrite app_nil_r.
  - intros u pw r. unfold refresh_token. by erewrite bind_Raise.
Qed.

(** ** Waiting for and finding elements *)

Lemma wait_found ctx timeout poll cond w e :
  fst (drv_wait ctx timeout poll cond (browser w)) = Some e ->
  WebDriverWait_until ctx timeout poll cond w =
    (Return e,
     World (snd (drv_wait ctx timeout poll cond (browser w))) (files w)
           (trace w ++ [EWait ctx timeout poll cond])).
Proof. intros E. unfold WebDriverWait_until. simpl. by rewrite E. Qed.

Lemma wait_timed_out ctx timeout poll cond w :
  fst (drv_wait ctx timeout poll cond (browser w)) = None ->
  WebDriverWait_until ctx timeout poll cond w =
    (Raise TimeoutException,
     World (snd (drv_wait ctx timeout poll cond (browser w))) (files w)
           (trace w ++ [EWait ctx timeout poll cond])).
Proof. intros E. unfold WebDriverWait_until. simpl. by rewrite E. Qed.

Lemma find_found parent css w e :
  fst (drv_find_css parent css (browser w)) = Some e ->
  find_element_by_css_selector parent css w = (Return e, searched parent css w).
Proof. intros E. unfold find_element_by_css_selector. simpl. by rewrite E. Qed.

Lemma find_missing parent css w :
  fst (drv_find_css parent css (browser w)) = None ->
  find_element_by_css_selector parent css w =
    (Raise NoSuchElementException, searched parent css w).
Proof. intros E. unfold find_element_by_css_selector. simpl. by rewrite E. Qed.

(** ** [login] *)

(** A [try] block of [login]: look the box up, find the control in it, act. *)
Ltac best_effort :=
  unfold fill_if_present, click_if_present;
  destruct (fst (drv_wait _ _ _ _ _)) as [box|] eqn:Ew;
  [ destruct (fst (drv_find_css _ _ _)) as [control|] eqn:Ef;
    [ apply try_except_Return;
      erewrite bind_Return by (apply wait_found; exact Ew);
      erewrite bind_Return by (apply find_found; exact Ef);
      reflexivity
    | eapply try_except_caught;
      [ erewrite bind_Return by (apply wait_found; exact Ew);
        erewrite bind_Raise by (apply find_missing; exact Ef);
        reflexivity
      | reflexivity ] ]
  | eapply try_except_caught;
    [ erewrite bind_Raise by (apply wait_timed_out; exact Ew); reflexivity
    | reflexivity ] ].

Lemma login_username_step self username w :
  login_username self username w =
    (Return tt,
     fill_if_present self "username-input" "div.awsui-input-container > input"
       username w).
Proof. unfold login_username. best_effort. Qed.

Lemma login_username_submit_step self w :
  login_username_submit self w =
    (Return tt, click_if_present self "username-submit-button" "button" w).
Proof. unfold login_username_submit. best_effort. Qed.

Lemma login_password_step self password w :
  login_password self password w =
    (Return tt,
     fill_if_present self "password-input" "div.awsui-input-container > input"
       password w).
Proof. unfold login_password. best_effort. Qed.

Lemma login_password_submit_step self w :
  login_password_submit self w =
    (Return tt, click_if_present self "password-submit-button" "button" w).
Proof. unfold login_password_submit. best_effort. Qed.

Lemma login_steps self username password w :
  login self username password w =
    (Return tt,
     click_if_present self "password-submit-button" "button"
       (fill_if_present self "password-input" "div.awsui-input-container > input"
          password
          (click_if_present self "username-submit-button" "button"
             (fill_if_present self "username-input"
                "div.awsui-input-container > input" username w)))).
Proof.
  unfold login.
  erewrite bind_Return by apply login_username_step.
  erewrite bind_Return by apply login_username_submit_step.
  erewrite bind_Return by apply login_password_step.
  apply login_password_submit_step.
Qed.

(** C4. [login] returns normally in every world, whichever of its four
    elements are missing: it is the four best-effort steps in sequence, each
    run on the world the previous one left, each acting on its element when
    that element is found and doing nothing more than the lookup when it is
    not. *)
Theorem login_tolerates_missing_elements self username password w :
  login self username password w =
    (Return tt,
     click_if_present self "password-submit-button" "button"
       (fill_if_present self "password-input" "div.awsui-input-container > input"
          password
          (click_if_present self "username-submit-button" "button"
             (fill_if_present self "username-input"
                "div.awsui-input-container > input" username w)))) ∧
  fst (login_username self username w) = Return tt ∧
  fst (login_username_submit self w) = Return tt ∧
  fst (login_password self password w) = Return tt ∧
  fst (login_password_submit self w) = Return tt.
Proof.
  split; [apply login_steps|].
  by rewrite login_username_step, login_username_submit_step,
    login_password_step, login_password_submit_step.
Qed.

(** ** [get_token] *)

Lemma get_token_timeout self restore w :
  let cond := presence_of_element_located TAG_NAME "portal-dashboard" in
  let r := drv_wait Page 1 (_poll_frequency self) cond (browser w) in
  fst r = None ->
  get_token self restore w =
    (Raise TimeoutException,
     World (snd r) (files w) (trace w ++ [EWait Page 1 (_poll_frequency self) cond])).
Proof.
  intros cond r E. unfold get_token.
  erewrite bind_Raise by (apply wait_timed_out; exact E). reflexivity.
Qed.

Lemma get_token_found self restore w c value expiry :
  let cond := presence_of_element_located TAG_NAME "portal-dashboard" in
  let r := drv_wait Page 1 (_poll_frequency self) cond (browser w) in
  let b := drv_get (_url self) (snd r) in
  is_Some (fst r) ->
  find_cookie authn (drv_get_cookies b) = Some c ->
  c !! "value" = Some value -> c !! "expiry" = Some expiry ->
  get_token self restore w =
    (Return (value, expiry),
     World (if restore then drv_back b else b) (files w)
           (trace w ++
            [EWait Page 1 (_poll_frequency self) cond; EGet (_url self); EGetCookies] ++
            (if restore then [EBack] else []))).
Proof.
  intros cond r b [marker E] Hc Hv He. unfold get_token.
  erewrite bind_Return by (apply wait_found; exact E).
  erewrite bind_Return by reflexivity.
  unfold driver_get_cookie.
  erewrite (bind_Return (bind driver_get_cookies _)) by reflexivity.
  simpl browser. fold cond. fold r. fold b. rewrite Hc.
  destruct restore.
  - erewrite bind_Return by reflexivity.
    unfold getitem. rewrite Hv, He.
    erewrite bind_Return by reflexivity. erewrite bind_Return by reflexivity.
    unfold ret. simpl. by rewrite <- !app_assoc.
  - erewrite bind_Return by reflexivity.
    unfold getitem. rewrite Hv, He.
    erewrite bind_Return by reflexivity. erewrite bind_Return by reflexivity.
    unfold ret. simpl. by rewrite <- !app_assoc.
Qed.

(** C5 (amended). [get_token] waits (timeout 1) for the [portal-dashboard]
    tag.  When the wait times out, [TimeoutException] leaves [get_token] and
    nothing else was done.  When the marker is there and the browser then
    holds the cookie named x-amz-sso_authn with a [value] and an [expiry],
    the calls made are: the wait, [get(url)], the cookie read, and [back()]
    last when [restore] is set; the result is the (value, expiry) pair of
    that cookie as read after the navigation. *)
Theorem get_token_behaviour self restore w :
  let cond := presence_of_element_located TAG_NAME "portal-dashboard" in
  let r := drv_wait Page 1 (_poll_frequency self) cond (browser w) in
  let b := drv_get (_url self) (snd r) in
  (fst r = None ->
     get_token self restore w =
       (Raise TimeoutException,
        World (snd r) (files w)
              (trace w ++ [EWait Page 1 (_poll_frequency self) cond]))) ∧
  (∀ c value expiry,
     is_Some (fst r) ->
     find_cookie authn (drv_get_cookies b) = Some c ->
     c !! "value" = Some value -> c !! "expiry" = Some expiry ->
     get_token self restore w =
       (Return (value, expiry),
        World (if restore then drv_back b else b) (files w)
              (trace w ++
               [EWait Page 1 (_poll_frequency self) cond; EGet (_url self);
                EGetCookies] ++
               (if restore then [EBack] else [])))).
Proof.
  intros cond r b. split.
  - apply get_token_timeout.
  - intros c value expiry. apply get_token_found.
Qed.

(** ** [check_alert] and [check_mfa] *)

Lemma check_alert_no_frame self w :
  fst (drv_wait Page 1 (_poll_frequency self)
         (presence_of_element_located ID "alertFrame") (browser w)) = None ->
  fst (check_alert self w) = Return tt.
Proof.
  intros E. unfold check_alert.
  erewrite try_except_caught;
    [ reflexivity
    | erewrite bind_Raise by (apply wait_timed_out; exact E); reflexivity
    | reflexivity ].
Qed.

Lemma check_alert_no_title self w alert :
  let r := drv_wait Page 1 (_poll_frequency self)
             (presence_of_element_located ID "alertFrame") (browser w) in
  fst r = Some alert ->
  fst (drv_find_css alert "div.a-alert-error > div.a-box-inner > h4" (snd r)) = None ->
  fst (check_alert self w) = Return tt.
Proof.
  intros r E E1. unfold check_alert.
  erewrite try_except_caught;
    [ reflexivity
    | erewrite bind_Return by (apply wait_found; exact E);
      erewrite bind_Raise by (apply find_missing; exact E1); reflexivity
    | reflexivity ].
Qed.

Lemma check_alert_no_label self w alert h4 :
  let r := drv_wait Page 1 (_poll_frequency self)
             (presence_of_element_located ID "alertFrame") (browser w) in
  let f1 := drv_find_css alert "div.a-alert-error > div.a-box-inner > h4" (snd r) in
  fst r = Some alert -> fst f1 = Some h4 ->
  fst (drv_find_css alert "div.a-alert-error > div.a-box-inner > div.gwt-Label"
         (snd f1)) = None ->
  fst (check_alert self w) = Return tt.
Proof.
  intros r f1 E E1 E2. unfold check_alert.
  erewrite try_except_caught;
    [ reflexivity
    | erewrite bind_Return by (apply wait_found; exact E);
      erewrite bind_Return by (apply find_found; exact E1);
      erewrite bind_Return by reflexivity;
      erewrite bind_Raise by (apply find_missing; exact E2); reflexivity
    | reflexivity ].
Qed.

Lemma check_alert_raises self w alert h4 label :
  let r := drv_wait Page 1 (_poll_frequency self)
             (presence_of_element_located ID "alertFrame") (browser w) in
  let f1 := drv_find_css alert "div.a-alert-error > div.a-box-inner > h4" (snd r) in
  let f2 := drv_find_css alert "div.a-alert-error > div.a-box-inner > div.gwt-Label"
              (snd f1) in
  fst r = Some alert -> fst f1 = Some h4 -> fst f2 = Some label ->
  fst (check_alert self w) =
    Raise (AlertMessage (drv_text h4 (snd f1) +:+ ": " +:+ drv_text label (snd f2))).
Proof.
  intros r f1 f2 E E1 E2. unfold check_alert.
  erewrite try_except_uncaught;
    [ reflexivity
    | erewrite bind_Return by (apply wait_found; exact E);
      erewrite bind_Return by (apply find_found; exact E1);
      erewrite bind_Return by reflexivity;
      erewrite bind_Return by (apply find_found; exact E2);
      erewrite bind_Return by reflexivity;
      reflexivity
    | reflexivity ].
Qed.

(** [check_alert] ends in one of two ways. *)
Lemma check_alert_outcome self w :
  fst (check_alert self w) = Return tt ∨
  ∃ msg, fst (check_alert self w) = Raise (AlertMessage msg).
Proof.
  destruct (fst (drv_wait Page 1 (_poll_frequency self)
                   (presence_of_element_located ID "alertFrame") (browser w)))
    as [alert|] eqn:E; [|left; by apply check_alert_no_frame].
  destruct (fst (drv_find_css alert "div.a-alert-error > div.a-box-inner > h4"
                   (snd (drv_wait Page 1 (_poll_frequency self)
                           (presence_of_element_located ID "alertFrame") (browser w)))))
    as [h4|] eqn:E1; [|left; by eapply check_alert_no_title].
  destruct (fst (drv_find_css alert
                   "div.a-alert-error > div.a-box-inner > div.gwt-Label"
                   (snd (drv_find_css alert "div.a-alert-error > div.a-box-inner > h4"
                           (snd (drv_wait Page 1 (_poll_frequency self)
                                   (presence_of_element_located ID "alertFrame")
                                   (browser w)))))))
    as [label|] eqn:E2; [|left; by eapply check_alert_no_label].
  right. eexists. by eapply check_alert_raises.
Qed.

Lemma check_mfa_found self w form :
  fst (drv_wait Page 1 (_poll_frequency self)
         (presence_of_element_located TAG_NAME "form") (browser w)) = Some form ->
  fst (check_mfa self w) = Raise (MFACodeNeeded form).
Proof.
  intros E. unfold check_mfa.
  erewrite try_except_uncaught;
    [ reflexivity
    | erewrite bind_Return by (apply wait_found; exact E); reflexivity
    | reflexivity ].
Qed.

Lemma check_mfa_no_form self w :
  fst (drv_wait Page 1 (_poll_frequency self)
         (presence_of_element_located TAG_NAME "form") (browser w)) = None ->
  fst (check_mfa self w) = Return tt.
Proof.
  intros E. unfold check_mfa.
  erewrite try_except_caught;
    [ reflexivity
    | erewrite bind_Raise by (apply wait_timed_out; exact E); reflexivity
    | reflexivity ].
Qed.

(** C6 (amended). [check_alert] waits (timeout 1) for the element with id
    [alertFrame].  It raises [AlertMessage] with the message
    "title: message" when the frame is found and both the title and the
    message element are found inside it; it returns normally when the frame
    is not found in time, and also when the frame is found but the title or
    the message element is missing from it. *)
Theorem check_alert_behaviour self w :
  let r := drv_wait Page 1 (_poll_frequency self)
             (presence_of_element_located ID "alertFrame") (browser w) in
  (fst r = None -> fst (check_alert self w) = Return tt) ∧
  (∀ alert, fst r = Some alert ->
     let f1 := drv_find_css alert "div.a-alert-error > div.a-box-inner > h4" (snd r) in
     (fst f1 = None -> fst (check_alert self w) = Return tt) ∧
     (∀ h4, fst f1 = Some h4 ->
        let f2 := drv_find_css alert
                    "div.a-alert-error > div.a-box-inner > div.gwt-Label" (snd f1) in
        (fst f2 = None -> fst (check_alert self w) = Return tt) ∧
        (∀ label, fst f2 = Some label ->
           fst (check_alert self w) =
             Raise (AlertMessage
                      (drv_text h4 (snd f1) +:+ ": " +:+ drv_text label (snd f2)))))).
Proof.
  intros r. split; [apply check_alert_no_frame|].
  intros alert E f1. split; [intros E1; by eapply check_alert_no_title|].
  intros h4 E1 f2. split; [intros E2; by eapply check_alert_no_label|].
  intros label E2. by eapply check_alert_raises.
Qed.

(** ** [refresh_token] *)

(** C1 (amended). In a call of [refresh_token] whose [get()] returns
    normally: when the dashboard marker appears before the timeout and the
    authentication cookie is there with a value and an expiry, the call
    returns that pair; when the marker does not appear, the call raises the
    [AlertMessage] of [check_alert] if that raises one, else raises
    [MFACodeNeeded] with the form if a form is found, else returns [None].
    The timeout itself never leaves the call. *)
Theorem refresh_token_outcomes self username password restore w :
  fst (get self w) = Return tt ->
  let w1 := snd (login self username password (snd (get self w))) in
  let cond := presence_of_element_located TAG_NAME "portal-dashboard" in
  let r := drv_wait Page 1 (_poll_frequency self) cond (browser w1) in
  let out := fst (refresh_token self username password restore w) in
  (∀ c value expiry,
     is_Some (fst r) ->
     find_cookie authn (drv_get_cookies (drv_get (_url self) (snd r))) = Some c ->
     c !! "value" = Some value -> c !! "expiry" = Some expiry ->
     out = Return (Some (value, expiry))) ∧
  (fst r = None ->
     let wt := World (snd r) (files w1)
                 (trace w1 ++ [EWait Page 1 (_poll_frequency self) cond]) in
     match fst (check_alert self wt) with
     | Raise e => out = Raise e ∧ ∃ msg, e = AlertMessage msg
     | Return _ =>
         match fst (drv_wait Page 1 (_poll_frequency self)
                      (presence_of_element_located TAG_NAME "form")
                      (browser (snd (check_alert self wt)))) with
         | Some form => out = Raise (MFACodeNeeded form)
         | None => out = Return None
         end
     end).
Proof.
  intros Hg w1 cond r out.
  destruct (get self w) as [[[]|e] wg] eqn:Eg; [|discriminate]. simpl in w1.
  assert (Hl : login self username password wg = (Return tt, w1))
    by (unfold w1; by rewrite login_steps).
  assert (Hpre : refresh_token self username password restore w =
    try_except (token <- get_token self restore ;; ret (Some token))
      is_TimeoutException
      (check_alert self ;; check_mfa self ;; ret None) w1).
  { unfold refresh_token.
    erewrite bind_Return by exact Eg. erewrite bind_Return by exact Hl.
    reflexivity. }
  split.
  - intros c value expiry Hm Hc Hv He. unfold out. rewrite Hpre.
    erewrite try_except_Return; [reflexivity|].
    erewrite bind_Return by (eapply get_token_found; eassumption).
    reflexivity.
  - intros En wt.
    assert (Hh : out = fst ((check_alert self ;; check_mfa self ;; ret None) wt)).
    { unfold out. rewrite Hpre.
      erewrite try_except_caught;
        [ reflexivity
        | erewrite bind_Raise by (apply get_token_timeout; exact En); reflexivity
        | reflexivity ]. }
    destruct (check_alert self wt) as [[[]|e] wa] eqn:Ea; simpl.
    + erewrite bind_Return in Hh by exact Ea.
      destruct (fst (drv_wait Page 1 (_poll_frequency self)
                       (presence_of_element_located TAG_NAME "form") (browser wa)))
        as [form|] eqn:Em.
      * pose proof (check_mfa_found self wa form Em) as Hm.
        destruct (check_mfa self wa) as [[[]|e'] wm] eqn:Emf;
          simpl in Hm; [discriminate|].
        erewrite bind_Raise in Hh by exact Emf. simpl in Hh. congruence.
      * pose proof (check_mfa_no_form self wa Em) as Hm.
        destruct (check_mfa self wa) as [[[]|e'] wm] eqn:Emf;
          simpl in Hm; [|discriminate].
        erewrite bind_Return in Hh by exact Emf. exact Hh.
    + erewrite bind_Raise in Hh by exact Ea. simpl in Hh. split; [exact Hh|].
      destruct (check_alert_outcome self wt) as [Hr|[msg Hr]];
        rewrite Ea in Hr; simpl in Hr; [discriminate|].
      exists msg. congruence.
Qed.

(** ** [send_mfa] *)

(** C9. [send_mfa] does the same whatever [trusted_device] is: the same
    outcome, the same calls on the form's elements, the same final world. *)
Theorem send_mfa_ignores_trusted_device self mfa_form mfacode
    (trusted_device trusted_device' : bool) w :
  send_mfa self mfa_form mfacode trusted_device w =
  send_mfa self mfa_form mfacode trusted_device' w.
Proof. reflexivity. Qed.

(** ** The cache key *)

Section CacheKey.

Variable sha256_hexdigest : list Byte.byte -> string.

Lemma encode_inj (s1 s2 : string) : encode s1 = encode s2 -> s1 = s2.
Proof.
  unfold encode. intros E.
  rewrite <- (String.string_of_list_byte_of_string s1),
          <- (String.string_of_list_byte_of_string s2).
  by rewrite E.
Qed.

(** C8. The cache key is the digest of the string [username@url] and of
    nothing else: constructions with the same identity string get the same
    key and, for the same cookie directory, the same cache file; two
    distinct identity strings get the same key only if their encodings are a
    collision of the hash function. *)
Theorem cache_key_deterministic (url1 username1 url2 username2 : string)
    (headless1 headless2 : bool) (cookie_dir : option string) :
  let id1 := username1 +:+ "@" +:+ url1 in
  let id2 := username2 +:+ "@" +:+ url2 in
  let self1 := fst (__init__ (B:=B) sha256_hexdigest url1 username1 headless1 cookie_dir) in
  let self2 := fst (__init__ (B:=B) sha256_hexdigest url2 username2 headless2 cookie_dir) in
  _cookie_hash self1 = hash sha256_hexdigest id1 ∧
  (id1 = id2 ->
     _cookie_hash self1 = _cookie_hash self2 ∧ _cookie_file self1 = _cookie_file self2) ∧
  (id1 ≠ id2 -> _cookie_hash self1 = _cookie_hash self2 ->
     collision sha256_hexdigest (encode id1) (encode id2)).
Proof.
  intros id1 id2 self1 self2. split; [reflexivity|]. split.
  - intros E. unfold self1, self2, __init__. simpl. fold id1 id2. by rewrite E.
  - intros N E. split; [|exact E].
    intros Q. apply N. by apply encode_inj.
Qed.

End CacheKey.

End Facts.

(** * Sessions on the simulated portal *)

Ltac run := vm_compute; reflexivity.

(** Scenario: right credentials, no second factor. *)
Example scenario_token :
  fst (refresh_token sim_self "alice" sim_password false sim_fresh) =
    Return (Some (PStr "AAAA-token", PInt 1700000000)).
Proof. run. Qed.

(** Scenario: wrong credentials. *)
Example scenario_alert :
  fst (refresh_token sim_self "alice" "wrong" false sim_fresh) =
    Raise (AlertMessage "Incorrect username or password.: Try again.").
Proof. run. Qed.

(** Scenario: a second factor is required, then supplied. *)
Example scenario_mfa :
  let p := {| shown := Blank; username_typed := ""; password_typed := "";
              code_typed := ""; mfa_enabled := true; jar := [] |} in
  let r := refresh_token sim_self "alice" sim_password false (sim_world p ∅) in
  fst r = Raise (MFACodeNeeded el_form) ∧
  fst (send_mfa sim_self el_form sim_code true (snd r)) = Return tt ∧
  shown (browser (snd (send_mfa sim_self el_form sim_code true (snd r)))) = Dashboard.
Proof. repeat split; run. Qed.

(** Scenario: the session is already signed in, no field is filled. *)
Example scenario_cached_session :
  let r := refresh_token sim_self "alice" sim_password false sim_signed_in in
  fst r = Return (Some (PStr "AAAA-token", PInt 1700000000)) ∧
  username_typed (browser (snd r)) = "" ∧ password_typed (browser (snd r)) = "".
Proof. repeat split; run. Qed.

(** C1, counterexample.  On a page that shows neither the dashboard, nor an
    alert frame, nor a form, [refresh_token] returns [None]: no pair and no
    exception. *)
Lemma refresh_token_returns_None :
  let w := sim_world (sim_at Stalled) ∅ in
  let w1 := snd (login sim_self "alice" sim_password (snd (get sim_self w))) in
  let out := fst (refresh_token sim_self "alice" sim_password false w) in
  fst (drv_wait Page 1 (_poll_frequency sim_self)
         (presence_of_element_located TAG_NAME "portal-dashboard") (browser w1)) = None ∧
  out = Return None ∧
  ¬ ((∃ msg, out = Raise (AlertMessage msg)) ∨ (∃ form, out = Raise (MFACodeNeeded form))).
Proof.
  intros w w1 out.
  assert (E : out = Return None) by run.
  split; [run|]. split; [exact E|].
  rewrite E. intros [[msg Q]|[form Q]]; discriminate.
Qed.

Lemma refresh_token_outcomes_witness :
  fst (get sim_self sim_fresh) = Return tt ∧
  fst (refresh_token sim_self "alice" sim_password true sim_fresh) =
    Return (Some (PStr "AAAA-token", PInt 1700000000)) ∧
  fst (refresh_token sim_self "alice" "wrong" true sim_fresh) =
    Raise (AlertMessage "Incorrect username or password.: Try again.").
Proof.
  assert (Hg : fst (get sim_self sim_fresh) = Return tt) by run.
  split; [exact Hg|]. split.
  - refine (proj1 (refresh_token_outcomes sim_self "alice" sim_password true
                     sim_fresh Hg) sim_authn_cookie _ _ _ _ _ _).
    + eexists. run.
    + run.
    + run.
    + run.
  - pose proof (proj2 (refresh_token_outcomes sim_self "alice" "wrong" true
                         sim_fresh Hg)) as Hb.
    assert (En : fst (drv_wait Page 1 (_poll_frequency sim_self)
                        (presence_of_element_located TAG_NAME "portal-dashboard")
                        (browser (snd (login sim_self "alice" "wrong"
                                         (snd (get sim_self sim_fresh)))))) = None)
      by run.
    specialize (Hb En). vm_compute in Hb. exact (proj1 Hb).
Defined.

Lemma close_never_persists_authn_witness :
  _cookie_file sim_self = Some sim_cache_path ∧ sim_cache_path ≠ "" ∧
  Forall named (drv_get_cookies (browser sim_signed_in)) ∧
  ∃ written,
    fst (close sim_self sim_signed_in) = Return tt ∧
    files (snd (close sim_self sim_signed_in)) !! sim_cache_path = Some (Pickled written) ∧
    (∀ c, c ∈ written -> c !! "name" ≠ Some (PStr authn)) ∧
    (∀ c, c ∈ drv_get_cookies (browser sim_signed_in) ->
          c !! "name" ≠ Some (PStr authn) -> c ∈ written) ∧
    written = filter persistable (drv_get_cookies (browser sim_signed_in)).
Proof.
  assert (Hp : _cookie_file sim_self = Some sim_cache_path) by run.
  assert (Hne : sim_cache_path ≠ "") by discriminate.
  assert (Hn : Forall named (drv_get_cookies (browser sim_signed_in)))
    by (repeat constructor; eexists; run).
  split; [exact Hp|]. split; [exact Hne|]. split; [exact Hn|].
  exact (close_never_persists_authn sim_self sim_signed_in sim_cache_path Hp Hne Hn).
Defined.

(** C3, counterexample.  A session holding the authentication cookie and a
    cookie with an expiry: the record written to the cache file still has
    its [expiry] field. *)
Lemma persisted_record_keeps_expiry :
  files (snd (close sim_self sim_signed_in)) !! sim_cache_path =
    Some (Pickled [sim_user_cookie]) ∧
  sim_user_cookie !! "expiry" = Some (PInt 1800000000) ∧
  ¬ (∀ written c,
       files (snd (close sim_self sim_signed_in)) !! sim_cache_path =
         Some (Pickled written) ->
       c ∈ written -> c !! "expiry" = None).
Proof.
  assert (Hf : files (snd (close sim_self sim_signed_in)) !! sim_cache_path =
               Some (Pickled [sim_user_cookie])) by run.
  assert (He : sim_user_cookie !! "expiry" = Some (PInt 1800000000)) by run.
  split; [exact Hf|]. split; [exact He|].
  intros N. specialize (N [sim_user_cookie] sim_user_cookie Hf).
  rewrite He in N. discriminate N. apply list_elem_of_singleton. reflexivity.
Qed.

Lemma cookie_cache_round_trip_witness :
  let w2 := sim_world (sim_launch true) (files (snd (close sim_self sim_signed_in))) in
  let kept := filter persistable (drv_get_cookies (browser sim_signed_in)) in
  _cookie_file sim_self = Some sim_cache_path ∧ sim_cache_path ≠ "" ∧
  Forall named (drv_get_cookies (browser sim_signed_in)) ∧
  files w2 = files (snd (close sim_self sim_signed_in)) ∧
  files (snd (close sim_self sim_signed_in)) !! sim_cache_path = Some (Pickled kept) ∧
  fst (get sim_self w2) = Return tt ∧
  injected (trace (snd (get sim_self w2))) = injected (trace w2) ++ (stripped <$> kept) ∧
  (∀ c, c ∈ kept ->
     stripped c !! "expiry" = None ∧ ∀ k, k ≠ "expiry" -> stripped c !! k = c !! k).
Proof.
  intros w2 kept.
  assert (Hp : _cookie_file sim_self = Some sim_cache_path) by run.
  assert (Hne : sim_cache_path ≠ "") by discriminate.
  assert (Hn : Forall named (drv_get_cookies (browser sim_signed_in)))
    by (repeat constructor; eexists; run).
  assert (Hfs : files w2 = files (snd (close sim_self sim_signed_in))) by reflexivity.
  split; [exact Hp|]. split; [exact Hne|]. split; [exact Hn|]. split; [exact Hfs|].
  exact (cookie_cache_round_trip sim_self sim_signed_in w2 sim_cache_path Hp Hne Hn Hfs).
Defined.

Lemma get_token_behaviour_witness :
  let cond := presence_of_element_located TAG_NAME "portal-dashboard" in
  let stalled := sim_world (sim_at Stalled) ∅ in
  (fst (drv_wait Page 1 (_poll_frequency sim_self) cond (browser stalled)) = None ∧
   fst (get_token sim_self true stalled) = Raise TimeoutException ∧
   trace (snd (get_token sim_self true stalled)) =
     [EWait Page 1 (_poll_frequency sim_self) cond]) ∧
  (is_Some (fst (drv_wait Page 1 (_poll_frequency sim_self) cond (browser sim_signed_in))) ∧
   fst (get_token sim_self true sim_signed_in) =
     Return (PStr "AAAA-token", PInt 1700000000) ∧
   trace (snd (get_token sim_self true sim_signed_in)) =
     [EWait Page 1 (_poll_frequency sim_self) cond; EGet (_url sim_self);
      EGetCookies; EBack]).
Proof.
  intros cond stalled. split.
  - assert (En : fst (drv_wait Page 1 (_poll_frequency sim_self) cond
                        (browser stalled)) = None) by run.
    split; [exact En|].
    rewrite (proj1 (get_token_behaviour sim_self true stalled) En).
    split; reflexivity.
  - assert (Hm : is_Some (fst (drv_wait Page 1 (_poll_frequency sim_self) cond
                                 (browser sim_signed_in)))) by (eexists; run).
    split; [exact Hm|].
    rewrite (proj2 (get_token_behaviour sim_self true sim_signed_in)
               sim_authn_cookie (PStr "AAAA-token") (PInt 1700000000) Hm
               ltac:(run) ltac:(run) ltac:(run)).
    split; reflexivity.
Defined.

(** C5, counterexample.  The dashboard marker is present, and the browser
    holds no authentication cookie, or holds it as a session cookie without
    [expiry]: [get_token] raises [TypeError], or [KeyError], and returns no
    pair. *)
Lemma get_token_marker_without_pair :
  let cond := presence_of_element_located TAG_NAME "portal-dashboard" in
  let bare := fst (get_token sim_self false sim_dashboard_bare) in
  let session := fst (get_token sim_self false sim_dashboard_session) in
  fst (drv_wait Page 1 (_poll_frequency sim_self) cond (browser sim_dashboard_bare)) =
    Some el_dashboard ∧
  bare = Raise TypeError ∧ ¬ (∃ token, bare = Return token) ∧
  fst (drv_wait Page 1 (_poll_frequency sim_self) cond
         (browser sim_dashboard_session)) = Some el_dashboard ∧
  session = Raise (KeyError "expiry") ∧ ¬ (∃ token, session = Return token).
Proof.
  intros cond bare session.
  assert (Eb : bare = Raise TypeError) by run.
  assert (Es : session = Raise (KeyError "expiry")) by run.
  split; [run|]. split; [exact Eb|]. split; [rewrite Eb; intros [t Q]; discriminate|].
  split; [run|]. split; [exact Es|]. rewrite Es; intros [t Q]; discriminate.
Qed.

(** C6, counterexample.  The alert frame is found but holds no error title:
    [check_alert] returns normally, no [AlertMessage] is raised. *)
Lemma check_alert_frame_found_returns :
  let w := sim_world (sim_at AlertFrameOnly) ∅ in
  fst (drv_wait Page 1 (_poll_frequency sim_self)
         (presence_of_element_located ID "alertFrame") (browser w)) =
    Some el_alert_frame ∧
  fst (check_alert sim_self w) = Return tt ∧
  ¬ (∃ msg, fst (check_alert sim_self w) = Raise (AlertMessage msg)).
Proof.
  intros w.
  assert (E : fst (check_alert sim_self w) = Return tt) by run.
  split; [run|]. split; [exact E|].
  rewrite E. intros [msg Q]. discriminate.
Qed.

Lemma check_alert_behaviour_witness :
  let cond := presence_of_element_located ID "alertFrame" in
  let css1 := "div.a-alert-error > div.a-box-inner > h4" in
  let css2 := "div.a-alert-error > div.a-box-inner > div.gwt-Label" in
  let none := sim_world (sim_at Stalled) ∅ in
  let bare := sim_world (sim_at AlertFrameOnly) ∅ in
  let banner := sim_world (sim_at AlertBanner) ∅ in
  (fst (drv_wait Page 1 (_poll_frequency sim_self) cond (browser none)) = None ∧
   fst (check_alert sim_self none) = Return tt) ∧
  (fst (drv_wait Page 1 (_poll_frequency sim_self) cond (browser bare)) =
     Some el_alert_frame ∧
   fst (drv_find_css el_alert_frame css1 (browser bare)) = None ∧
   fst (check_alert sim_self bare) = Return tt) ∧
  (fst (drv_wait Page 1 (_poll_frequency sim_self) cond (browser banner)) =
     Some el_alert_frame ∧
   fst (drv_find_css el_alert_frame css1 (browser banner)) = Some el_alert_title ∧
   fst (drv_find_css el_alert_frame css2 (browser banner)) = Some el_alert_label ∧
   fst (check_alert sim_self banner) =
     Raise (AlertMessage "Incorrect username or password.: Try again.")).
Proof.
  intros cond css1 css2 none bare banner. split; [|split].
  - assert (En : fst (drv_wait Page 1 (_poll_frequency sim_self) cond
                        (browser none)) = None) by run.
    split; [exact En|].
    exact (proj1 (check_alert_behaviour sim_self none) En).
  - assert (Ef : fst (drv_wait Page 1 (_poll_frequency sim_self) cond
                        (browser bare)) = Some el_alert_frame) by run.
    assert (E1 : fst (drv_find_css el_alert_frame css1 (browser bare)) = None) by run.
    split; [exact Ef|]. split; [exact E1|].
    exact (proj1 (proj2 (check_alert_behaviour sim_self bare) el_alert_frame Ef) E1).
  - assert (Ef : fst (drv_wait Page 1 (_poll_frequency sim_self) cond
                        (browser banner)) = Some el_alert_frame) by run.
    assert (E1 : fst (drv_find_css el_alert_frame css1 (browser banner)) =
                 Some el_alert_title) by run.
    assert (E2 : fst (drv_find_css el_alert_frame css2 (browser banner)) =
                 Some el_alert_label) by run.
    split; [exact Ef|]. split; [exact E1|]. split; [exact E2|].
    exact (proj2 (proj2 (proj2 (check_alert_behaviour sim_self banner)
                           el_alert_frame Ef) el_alert_title E1) el_alert_label E2).
Defined.

Lemma load_cookies_never_errors_witness :
  _cookie_file sim_self = Some sim_cache_path ∧ sim_cache_path ≠ "" ∧
  (files sim_cached !! sim_cache_path =
     Some (Pickled [sim_user_cookie; sim_session_cookie]) ∧
   sim_session_cookie !! "expiry" = None ∧
   fst (get sim_self sim_cached) = Return tt ∧
   injected (trace (snd (get sim_self sim_cached))) =
     [stripped sim_user_cookie; sim_session_cookie]) ∧
  (files sim_fresh !! sim_cache_path = None ∧
   fst (get sim_self sim_fresh) = Return tt ∧
   injected (trace (snd (get sim_self sim_fresh))) = []).
Proof.
  assert (Hp : _cookie_file sim_self = Some sim_cache_path) by run.
  assert (Hne : sim_cache_path ≠ "") by discriminate.
  split; [exact Hp|]. split; [exact Hne|]. split.
  - assert (Hf : files sim_cached !! sim_cache_path =
                 Some (Pickled [sim_user_cookie; sim_session_cookie])) by run.
    assert (He : sim_session_cookie !! "expiry" = None) by run.
    destruct (proj1 (load_cookies_never_errors sim_self sim_cached sim_cache_path
                       Hp Hne) _ Hf) as (_ & Hg & Hi & _ & Hs).
    split; [exact Hf|]. split; [exact He|]. split; [exact Hg|].
    rewrite Hi. simpl. by rewrite (Hs sim_session_cookie He).
  - assert (Hf : files sim_fresh !! sim_cache_path = None) by run.
    destruct (proj2 (load_cookies_never_errors sim_self sim_fresh sim_cache_path
                       Hp Hne) Hf) as (_ & Hg & Hi & _).
    split; [exact Hf|]. split; [exact Hg|]. exact Hi.
Defined.

Lemma cache_key_deterministic_witness :
  let url := "https://portal.example/start" in
  (_cookie_file (fst (__init__ (B:=portal) sim_digest url "alice" true (Some "/tmp/c"))) =
   _cookie_file (fst (__init__ (B:=portal) sim_digest url "alice" false (Some "/tmp/c")))) ∧
  ("alice" +:+ "@" +:+ url ≠ "bob" +:+ "@" +:+ url ∧
   _cookie_hash (fst (__init__ (B:=portal) sim_constant_digest url "alice" true None)) =
   _cookie_hash (fst (__init__ (B:=portal) sim_constant_digest url "bob" true None)) ∧
   collision sim_constant_digest (encode ("alice" +:+ "@" +:+ url))
     (encode ("bob" +:+ "@" +:+ url))).
Proof.
  intros url. split.
  - exact (proj2 (proj1 (proj2 (cache_key_deterministic (B:=portal) sim_digest
                                  url "alice" url "alice" true false (Some "/tmp/c")))
                    eq_refl)).
  - assert (N : "alice" +:+ "@" +:+ url ≠ "bob" +:+ "@" +:+ url) by discriminate.
    assert (E : _cookie_hash (fst (__init__ (B:=portal) sim_constant_digest url
                                     "alice" true None)) =
                _cookie_hash (fst (__init__ (B:=portal) sim_constant_digest url
                                     "bob" true None))) by reflexivity.
    split; [exact N|]. split; [exact E|].
    exact (proj2 (proj2 (cache_key_deterministic (B:=portal) sim_constant_digest
                           url "alice" url "bob" true true None)) N E).
Defined.

Lemma get_propagates_unreadable_cache_witness :
  _cookie_file sim_self = Some sim_cache_path ∧ sim_cache_path ≠ "" ∧
  files sim_corrupt !! sim_cache_path = Some Garbage ∧
  fst (_load_cookies sim_self sim_corrupt) = Raise UnpicklingError ∧
  fst (get sim_self sim_corrupt) = Raise UnpicklingError ∧
  injected (trace (snd (get sim_self sim_corrupt))) = injected (trace sim_corrupt) ∧
  ∀ username password restore,
    fst (refresh_token sim_self username password restore sim_corrupt) =
      Raise UnpicklingError.
Proof.
  assert (Hp : _cookie_file sim_self = Some sim_cache_path) by run.
  assert (Hne : sim_cache_path ≠ "") by discriminate.
  assert (Hf : files sim_corrupt !! sim_cache_path = Some Garbage) by run.
  split; [exact Hp|]. split; [exact Hne|]. split; [exact Hf|].
  exact (get_propagates_unreadable_cache sim_self sim_corrupt sim_cache_path Hp Hne Hf).
Defined.

(** * Further properties of the module *)

Section MoreFacts.

Context {B : Type} `{WebDriver B}.

Implicit Types (self : SSODriver) (w : world B) (c : cookie).

(** ** [get_token] and [refresh_token] beyond the expected session *)

Lemma get_token_marker self restore w :
  let cond := presence_of_element_located TAG_NAME "portal-dashboard" in
  let r := drv_wait Page 1 (_poll_frequency self) cond (browser w) in
  let b := drv_get (_url self) (snd r) in
  is_Some (fst r) ->
  get_token self restore w =
    (subscript_token (find_cookie authn (drv_get_cookies b)),
     World (if restore then drv_back b else b) (files w)
           (trace w ++
            [EWait Page 1 (_poll_frequency self) cond; EGet (_url self); EGetCookies] ++
            (if restore then [EBack] else []))).
Proof.
  intros cond r b [marker E]. unfold get_token.
  erewrite bind_Return by (apply wait_found; exact E).
  erewrite bind_Return by reflexivity.
  unfold driver_get_cookie.
  erewrite (bind_Return (bind driver_get_cookies _)) by reflexivity.
  simpl browser. fold cond. fold r. fold b.
  assert (Hw : ∀ w0 : world B,
    (if restore then driver_back else ret tt) w0 =
      (Return tt,
       World (if restore then drv_back (browser w0) else browser w0) (files w0)
             (trace w0 ++ (if restore then [EBack] else [])))).
  { intros [b0 f0 t0]. destruct restore; simpl; [reflexivity|].
    unfold ret. by rewrite app_nil_r. }
  erewrite bind_Return by apply Hw. simpl.
  rewrite <- !app_assoc. simpl.
  unfold subscript_token, getitem.
  destruct (find_cookie authn (drv_get_cookies b)) as [c|]; [|reflexivity].
  destruct (c !! "value") as [v|]; [|reflexivity].
  erewrite bind_Return by reflexivity.
  destruct (c !! "expiry") as [e|]; reflexivity.
Qed.

(** X1. When the dashboard marker is there but the authentication cookie is
    not, [get_token] raises [TypeError]; when the cookie lacks [value] or
    [expiry] it raises [KeyError] for that key.  In each case the
    navigation, the cookie read and (with [restore]) [back()] were done
    before the error. *)
Theorem get_token_without_cookie self restore w :
  let cond := presence_of_element_located TAG_NAME "portal-dashboard" in
  let r := drv_wait Page 1 (_poll_frequency self) cond (browser w) in
  let found := find_cookie authn (drv_get_cookies (drv_get (_url self) (snd r))) in
  is_Some (fst r) ->
  (found = None -> fst (get_token self restore w) = Raise TypeError) ∧
  (∀ c, found = Some c -> c !! "value" = None ->
     fst (get_token self restore w) = Raise (KeyError "value")) ∧
  (∀ c, found = Some c -> is_Some (c !! "value") -> c !! "expiry" = None ->
     fst (get_token self restore w) = Raise (KeyError "expiry")) ∧
  trace (snd (get_token self restore w)) =
    trace w ++
    [EWait Page 1 (_poll_frequency self) cond; EGet (_url self); EGetCookies] ++
    (if restore then [EBack] else []).
Proof.
  intros cond r found Hm. rewrite (get_token_marker self restore w Hm).
  fold cond r found. simpl. repeat split.
  - intros E. by rewrite E.
  - intros c E Ev. rewrite E. simpl. by rewrite Ev.
  - intros c E [v Ev] Ee. rewrite E. simpl. by rewrite Ev, Ee.
Qed.

Lemma refresh_token_after_login self username password restore w :
  fst (get self w) = Return tt ->
  refresh_token self username password restore w =
    try_except (token <- get_token self restore ;; ret (Some token))
      is_TimeoutException
      (check_alert self ;; check_mfa self ;; ret None)
      (snd (login self username password (snd (get self w)))).
Proof.
  intros Hg. destruct (get self w) as [[[]|e] wg] eqn:Eg; [|discriminate].
  unfold refresh_token.
  erewrite bind_Return by exact Eg.
  erewrite bind_Return by apply login_steps.
  simpl. by rewrite login_steps.
Qed.

Lemma classify_not_timeout self restore w1 :
  fst (get_token self restore w1) ≠ Raise TimeoutException ->
  try_except (token <- get_token self restore ;; ret (Some token))
    is_TimeoutException
    (check_alert self ;; check_mfa self ;; ret None) w1 =
    (match fst (get_token self restore w1) with
     | Return token => Return (Some token)
     | Raise e => Raise e
     end,
     snd (get_token self restore w1)).
Proof.
  intros Hn.
  destruct (get_token self restore w1) as [[token|e] w2] eqn:Et; simpl in *.
  - apply try_except_Return. by erewrite bind_Return by exact Et.
  - apply try_except_uncaught; [by erewrite bind_Raise by exact Et|].
    destruct e; try reflexivity. by destruct Hn.
Qed.

Lemma classify_timeout self restore w1 wt :
  get_token self restore w1 = (Raise TimeoutException, wt) ->
  try_except (token <- get_token self restore ;; ret (Some token))
    is_TimeoutException
    (check_alert self ;; check_mfa self ;; ret None) w1 =
    (check_alert self ;; check_mfa self ;; ret None) wt.
Proof.
  intros Et.
  eapply try_except_caught; [by erewrite bind_Raise by exact Et | reflexivity].
Qed.

(** X2. Only the timeout of [get_token] is classified.  When [get()]
    returned normally and [get_token] ends in any other way, [refresh_token]
    ends the same way in the same world: the token is returned, any other
    exception is raised unchanged, and neither [check_alert] nor [check_mfa]
    runs. *)
Theorem refresh_token_passes_get_token self username password restore w :
  fst (get self w) = Return tt ->
  let w1 := snd (login self username password (snd (get self w))) in
  fst (get_token self restore w1) ≠ Raise TimeoutException ->
  refresh_token self username password restore w =
    (match fst (get_token self restore w1) with
     | Return token => Return (Some token)
     | Raise e => Raise e
     end,
     snd (get_token self restore w1)).
Proof.
  intros Hg w1 Hn. rewrite (refresh_token_after_login _ _ _ _ _ Hg). fold w1.
  by apply classify_not_timeout.
Qed.

(** X3. [restore] never changes how [get_token] or [refresh_token] ends:
    the same token or the same exception with and without it. *)
Theorem restore_keeps_outcome self username password w :
  fst (get_token self true w) = fst (get_token self false w) ∧
  fst (refresh_token self username password true w) =
    fst (refresh_token self username password false w).
Proof.
  assert (Hgt : ∀ w0,
    (∃ wt, get_token self true w0 = (Raise TimeoutException, wt) ∧
           get_token self false w0 = (Raise TimeoutException, wt)) ∨
    (fst (get_token self true w0) = fst (get_token self false w0) ∧
     fst (get_token self false w0) ≠ Raise TimeoutException)).
  { intros w0.
    destruct (fst (drv_wait Page 1 (_poll_frequency self)
                     (presence_of_element_located TAG_NAME "portal-dashboard")
                     (browser w0))) as [marker|] eqn:E.
    - right.
      rewrite !(get_token_marker self _ w0) by (by rewrite E). simpl.
      split; [reflexivity|].
      unfold subscript_token. repeat case_match; discriminate.
    - left. eexists.
      rewrite !(get_token_timeout self _ w0 E). split; reflexivity. }
  split.
  - destruct (Hgt w) as [(wt & E1 & E2)|[E _]]; [by rewrite E1, E2 | exact E].
  - destruct (get self w) as [[[]|e] wg] eqn:Eg.
    + rewrite !refresh_token_after_login by (by rewrite Eg). rewrite Eg. simpl.
      set (w1 := snd (login self username password wg)).
      destruct (Hgt w1) as [(wt & E1 & E2)|[E N]].
      * by rewrite (classify_timeout self true w1 wt E1),
          (classify_timeout self false w1 wt E2).
      * rewrite !classify_not_timeout by (by rewrite ?E). simpl. by rewrite E.
    + unfold refresh_token. by erewrite !bind_Raise by exact Eg.
Qed.

(** ** What touches the file system *)

Lemma keeps_files_ret {A} (a : A) : keeps_files (B:=B) (ret a).
Proof. by intros w. Qed.

Lemma keeps_files_raise {A} e : keeps_files (B:=B) (A:=A) (raise e).
Proof. by intros w. Qed.

Lemma keeps_files_bind {A C} (m : M B A) (k : A -> M B C) :
  keeps_files m -> (∀ a, keeps_files (k a)) -> keeps_files (bind m k).
Proof.
  intros Hm Hk w. unfold bind. specialize (Hm w).
  destruct (m w) as [[a|e] w']; simpl in *; [|done].
  by rewrite Hk.
Qed.

Lemma keeps_files_try_except {A} (body handler : M B A) classes :
  keeps_files body -> keeps_files handler ->
  keeps_files (try_except body classes handler).
Proof.
  intros Hb Hh w. unfold try_except. specialize (Hb w).
  destruct (body w) as [[a|e] w']; simpl in *; [done|].
  destruct (classes e); simpl; [by rewrite Hh | done].
Qed.

Lemma keeps_files_call ev (f : B -> B) : keeps_files (call ev f).
Proof. by intros w. Qed.

Lemma keeps_files_wait ctx timeout poll cond :
  keeps_files (WebDriverWait_until ctx timeout poll cond).
Proof. intros w. unfold WebDriverWait_until. by case_match. Qed.

Lemma keeps_files_find parent css :
  keeps_files (find_element_by_css_selector parent css).
Proof. intros w. unfold find_element_by_css_selector. by case_match. Qed.

Lemma keeps_files_open_rb path : keeps_files (open_rb (B:=B) path).
Proof. intros w. unfold open_rb. destruct path; [by case_match | done]. Qed.

Lemma keeps_files_load_loop cookies : keeps_files (_load_cookies_loop cookies).
Proof. intros w. by rewrite _load_cookies_loop_injects. Qed.

Create HintDb keeps.

#[local] Hint Resolve keeps_files_ret keeps_files_raise keeps_files_call
  keeps_files_wait keeps_files_find keeps_files_open_rb keeps_files_load_loop
  : keeps.

Ltac keeps :=
  repeat first
    [ progress auto with keeps
    | apply keeps_files_bind; [|intros ?]
    | apply keeps_files_try_except
    | match goal with |- keeps_files (if ?b then _ else _) => destruct b end
    | match goal with |- keeps_files (match ?x with _ => _ end) => destruct x end
    | by intros ? ].

Lemma keeps_files_get self : keeps_files (get self).
Proof.
  unfold get, _load_cookies, driver_get, pickle_load. keeps.
Qed.

Lemma keeps_files_login self username password :
  keeps_files (login self username password).
Proof. intros w. by rewrite login_steps; unfold click_if_present, fill_if_present;
  repeat case_match. Qed.

Lemma keeps_files_get_token self restore : keeps_files (get_token self restore).
Proof.
  unfold get_token, driver_get, driver_get_cookie, driver_get_cookies,
    driver_back, getitem. keeps.
Qed.

Lemma keeps_files_check_alert self : keeps_files (check_alert self).
Proof. unfold check_alert, element_text. keeps. Qed.

Lemma keeps_files_check_mfa self : keeps_files (check_mfa self).
Proof. unfold check_mfa. keeps. Qed.

(** X4. Nothing but [close] writes.  [get], [login], [get_token],
    [refresh_token] and [send_mfa] leave every file as it was, however they
    end. *)
Theorem only_close_writes self username password restore mfa_form mfacode
    trusted_device w :
  files (snd (get self w)) = files w ∧
  files (snd (login self username password w)) = files w ∧
  files (snd (get_token self restore w)) = files w ∧
  files (snd (refresh_token self username password restore w)) = files w ∧
  files (snd (send_mfa self mfa_form mfacode trusted_device w)) = files w.
Proof.
  split; [apply keeps_files_get|]. split; [apply keeps_files_login|].
  split; [apply keeps_files_get_token|]. split.
  - revert w. change (keeps_files (refresh_token self username password restore)).
    unfold refresh_token.
    apply keeps_files_bind; [apply keeps_files_get|intros _].
    apply keeps_files_bind; [apply keeps_files_login|intros _].
    apply keeps_files_try_except.
    + apply keeps_files_bind; [apply keeps_files_get_token|intros ?; keeps].
    + apply keeps_files_bind; [apply keeps_files_check_alert|intros _].
      apply keeps_files_bind; [apply keeps_files_check_mfa|intros _; keeps].
  - revert w. change (keeps_files (send_mfa self mfa_form mfacode trusted_device)).
    unfold send_mfa, _find_element_by_css_selector, element_clear,
      element_send_keys, element_click. keeps.
Qed.

(** ** [close] and the cache file *)


Lemma _dump_cookies_loop_nameless (session acc : list cookie) w :
  ¬ Forall named session ->
  _dump_cookies_loop session acc w = (Raise (KeyError "name"), w).
Proof.
  revert acc. induction session as [|c rest IH]; intros acc Hn.
  - destruct Hn. constructor.
  - simpl. unfold getitem at 1.
    destruct (c !! "name") as [v|] eqn:Ev; [|reflexivity].
    erewrite bind_Return by reflexivity.
    assert (Hr : ¬ Forall named rest).
    { intros Hr. apply Hn. constructor; [by exists v | exact Hr]. }
    destruct (not_in v exclude); by apply IH.
Qed.

(** X7. A session cookie without a [name] stops [close]: [cookie['name']]
    raises [KeyError], the cache file is not written and, the error leaving
    [close] at once, the browser is not quit. *)
Theorem close_stops_at_nameless_cookie self w p :
  _cookie_file self = Some p -> p ≠ "" ->
  ¬ Forall named (drv_get_cookies (browser w)) ->
  close self w =
    (Raise (KeyError "name"), World (browser w) (files w) (trace w ++ [EGetCookies])).
Proof.
  intros Hp Hne Hn. unfold close. rewrite Hp, (truthy_Some p Hne).
  apply bind_Raise. unfold _dump_cookies.
  erewrite bind_Return by reflexivity.
  apply bind_Raise. by apply _dump_cookies_loop_nameless.
Qed.

(** X8. With a readable cache file, [get] navigates once, first, and then
    hands the cached records to [add_cookie] in the order of the file, each
    without its [expiry]; it makes no other call. *)
Theorem get_navigates_then_injects self w p cookies :
  _cookie_file self = Some p -> p ≠ "" ->
  files w !! p = Some (Pickled cookies) ->
  get self w =
    (Return tt,
     World (foldl (fun b c => drv_add_cookie c b) (drv_get (_url self) (browser w))
              (stripped <$> cookies))
           (files w)
           (trace w ++ EGet (_url self) :: (EAddCookie <$> (stripped <$> cookies)))).
Proof.
  intros Hp Hne Hf. rewrite get_navigates, Hp, (truthy_Some p Hne).
  erewrite _load_cookies_cached by done.
  rewrite _load_cookies_loop_injects. simpl. by rewrite <- app_assoc.
Qed.

Section NoCache.

Variable sha256_hexdigest : list Byte.byte -> string.

(** X6. Built without a cookie directory ([None] or the empty string), the
    object has no cache file: [get] only navigates and [close] only quits,
    whatever the files and the cookies are. *)
Theorem no_cookie_dir_no_cache (url username : string) (headless : bool)
    (cookie_dir : option string) w :
  cookie_dir = None ∨ cookie_dir = Some "" ->
  let self := fst (__init__ (B:=B) sha256_hexdigest url username headless cookie_dir) in
  _cookie_file self = None ∧
  get self w =
    (Return tt, World (drv_get url (browser w)) (files w) (trace w ++ [EGet url])) ∧
  close self w =
    (Return tt, World (drv_quit (browser w)) (files w) (trace w ++ [EQuit])).
Proof.
  intros Hd self.
  assert (Hf : _cookie_file self = None) by (by destruct Hd as [->| ->]).
  split; [exact Hf|]. split.
  - rewrite get_navigates, Hf. reflexivity.
  - unfold close. rewrite Hf. reflexivity.
Qed.

End NoCache.

(** ** The calls [login] makes *)

Lemma fill_if_present_trace self element_id css text w :
  ∃ delta,
    trace (fill_if_present self element_id css text w) = trace w ++ delta ∧
    waits delta = [(Page, 1, presence_of_element_located ID element_id)] ∧
    forallb on_page delta = true ∧
    (keys_sent delta = [] ∨ keys_sent delta = [text]).
Proof.
  unfold fill_if_present, searched, looked_up.
  destruct (fst (drv_wait _ _ _ _ _)) as [box|]; simpl.
  - destruct (fst (drv_find_css _ _ _)) as [input|]; simpl.
    + eexists. rewrite <- !app_assoc. simpl. split; [reflexivity|]. auto.
    + eexists. rewrite <- !app_assoc. simpl. split; [reflexivity|]. auto.
  - eexists. split; [reflexivity|]. auto.
Qed.

Lemma click_if_present_trace self element_id css w :
  ∃ delta,
    trace (click_if_present self element_id css w) = trace w ++ delta ∧
    waits delta = [(Page, 1, presence_of_element_located ID element_id)] ∧
    forallb on_page delta = true ∧
    keys_sent delta = [].
Proof.
  unfold click_if_present, searched, looked_up.
  destruct (fst (drv_wait _ _ _ _ _)) as [box|]; simpl.
  - destruct (fst (drv_find_css _ _ _)) as [button|]; simpl.
    + eexists. rewrite <- !app_assoc. simpl. split; [reflexivity|]. auto.
    + eexists. rewrite <- !app_assoc. simpl. split; [reflexivity|]. auto.
  - eexists. split; [reflexivity|]. auto.
Qed.

Lemma login_trace self username password w :
  ∃ d1 d2 d3 d4,
    trace (snd (login self username password w)) = trace w ++ d1 ++ d2 ++ d3 ++ d4 ∧
    waits (d1 ++ d2 ++ d3 ++ d4) =
      [(Page, 1, presence_of_element_located ID "username-input");
       (Page, 1, presence_of_element_located ID "username-submit-button");
       (Page, 1, presence_of_element_located ID "password-input");
       (Page, 1, presence_of_element_located ID "password-submit-button")] ∧
    forallb on_page (d1 ++ d2 ++ d3 ++ d4) = true ∧
    (keys_sent d1 = [] ∨ keys_sent d1 = [username]) ∧ keys_sent d2 = [] ∧
    (keys_sent d3 = [] ∨ keys_sent d3 = [password]) ∧ keys_sent d4 = [].
Proof.
  rewrite login_steps. simpl.
  set (w1 := fill_if_present self "username-input" _ username w).
  set (w2 := click_if_present self "username-submit-button" _ w1).
  set (w3 := fill_if_present self "password-input" _ password w2).
  destruct (fill_if_present_trace self "username-input"
              "div.awsui-input-container > input" username w)
    as (d1 & T1 & W1 & P1 & K1).
  destruct (click_if_present_trace self "username-submit-button" "button" w1)
    as (d2 & T2 & W2 & P2 & K2).
  destruct (fill_if_present_trace self "password-input"
              "div.awsui-input-container > input" password w2)
    as (d3 & T3 & W3 & P3 & K3).
  destruct (click_if_present_trace self "password-submit-button" "button" w3)
    as (d4 & T4 & W4 & P4 & K4).
  exists d1, d2, d3, d4.
  fold w1 in T1. fold w2 in T2. fold w3 in T3.
  split; [by rewrite T4, T3, T2, T1, <- !app_assoc|].
  split; [unfold waits in *; by rewrite !omap_app, W1, W2, W3, W4|].
  split; [by rewrite !forallb_app, P1, P2, P3, P4|].
  done.
Qed.

(** X9. Whatever the page shows, [login] makes exactly four waits, of
    timeout 1 each, for the four element ids in their fixed order, and every
    call it makes is a lookup of or an action on a page element: it never
    navigates, never reads or adds a cookie, never quits. *)
Theorem login_waits_four_times self username password w :
  ∃ delta,
    trace (snd (login self username password w)) = trace w ++ delta ∧
    waits delta =
      [(Page, 1, presence_of_element_located ID "username-input");
       (Page, 1, presence_of_element_located ID "username-submit-button");
       (Page, 1, presence_of_element_located ID "password-input");
       (Page, 1, presence_of_element_located ID "password-submit-button")] ∧
    forallb on_page delta = true.
Proof.
  destruct (login_trace self username password w)
    as (d1 & d2 & d3 & d4 & T & W & P & _).
  by exists (d1 ++ d2 ++ d3 ++ d4).
Qed.

(** X10. The only texts [login] types are the username and the password,
    each at most once and the username first. *)
Theorem login_types_only_credentials self username password w :
  ∃ delta,
    trace (snd (login self username password w)) = trace w ++ delta ∧
    sublist (keys_sent delta) [username; password].
Proof.
  destruct (login_trace self username password w)
    as (d1 & d2 & d3 & d4 & T & _ & _ & K1 & K2 & K3 & K4).
  exists (d1 ++ d2 ++ d3 ++ d4). split; [exact T|].
  unfold keys_sent in *. rewrite !omap_app, K2, K4. simpl. rewrite app_nil_r.
  destruct K1 as [-> | ->], K3 as [-> | ->]; simpl;
    repeat first [apply sublist_nil | apply sublist_skip, sublist_nil
                 | apply sublist_skip | apply sublist_cons ];
    repeat constructor.
Qed.

(** ** [check_mfa], [send_mfa] and the element helpers *)

(** X12. [check_mfa] makes one wait (timeout 1) for any element with tag
    [form].  If one is found it raises [MFACodeNeeded] carrying that very
    element; if not it returns normally. *)
Theorem check_mfa_behaviour self w :
  let cond := presence_of_element_located TAG_NAME "form" in
  let r := drv_wait Page 1 (_poll_frequency self) cond (browser w) in
  let wt := World (snd r) (files w)
              (trace w ++ [EWait Page 1 (_poll_frequency self) cond]) in
  check_mfa self w =
    (match fst r with
     | Some form => Raise (MFACodeNeeded form)
     | None => Return tt
     end, wt).
Proof.
  intros cond r wt. unfold check_mfa.
  destruct (fst r) as [form|] eqn:E.
  - eapply try_except_uncaught;
      [erewrite bind_Return by (apply wait_found; exact E); reflexivity
      |reflexivity].
  - eapply try_except_caught;
      [erewrite bind_Raise by (apply wait_timed_out; exact E); reflexivity
      |reflexivity].
Qed.

(** X11. [send_mfa] looks both controls up inside the form (timeout 10,
    visibility) before it touches either.  If the code field or the button
    does not show, [TimeoutException] leaves [send_mfa] and nothing was
    cleared, typed or clicked; otherwise the field is cleared, the code
    typed into it and the button clicked, in that order. *)
Theorem send_mfa_behaviour self mfa_form mfacode trusted_device w :
  let poll := _poll_frequency self in
  let c1 := visibility_of_element_located CSS_SELECTOR "input.awsui-input-type-number" in
  let c2 := visibility_of_element_located CSS_SELECTOR
              "button.awsui-button-variant-primary" in
  let r1 := drv_wait (Within mfa_form) 10 poll c1 (browser w) in
  let r2 := drv_wait (Within mfa_form) 10 poll c2 (snd r1) in
  (fst r1 = None ->
     send_mfa self mfa_form mfacode trusted_device w =
       (Raise TimeoutException,
        World (snd r1) (files w) (trace w ++ [EWait (Within mfa_form) 10 poll c1]))) ∧
  (is_Some (fst r1) -> fst r2 = None ->
     send_mfa self mfa_form mfacode trusted_device w =
       (Raise TimeoutException,
        World (snd r2) (files w)
              (trace w ++ [EWait (Within mfa_form) 10 poll c1;
                           EWait (Within mfa_form) 10 poll c2]))) ∧
  (∀ el_mfacode el_signin,
     fst r1 = Some el_mfacode -> fst r2 = Some el_signin ->
     send_mfa self mfa_form mfacode trusted_device w =
       (Return tt,
        World (drv_click el_signin
                 (drv_send_keys el_mfacode mfacode (drv_clear el_mfacode (snd r2))))
              (files w)
              (trace w ++ [EWait (Within mfa_form) 10 poll c1;
                           EWait (Within mfa_form) 10 poll c2;
                           EClear el_mfacode; ESendKeys el_mfacode mfacode;
                           EClick el_signin]))).
Proof.
  intros poll c1 c2 r1 r2. unfold send_mfa, _find_element_by_css_selector.
  simpl driver_or_self. fold poll c1 c2. repeat split.
  - intros E1. erewrite bind_Raise by (apply wait_timed_out; exact E1). reflexivity.
  - intros [e1 E1] E2.
    erewrite bind_Return by (apply wait_found; exact E1).
    erewrite bind_Raise by (apply wait_timed_out; exact E2).
    simpl. by rewrite <- app_assoc.
  - intros e1 e2 E1 E2.
    erewrite bind_Return by (apply wait_found; exact E1).
    erewrite bind_Return by (apply wait_found; exact E2).
    erewrite bind_Return by reflexivity.
    erewrite bind_Return by reflexivity.
    unfold element_click, call. simpl. by rewrite <- !app_assoc.
Qed.

(** [_click_element_by_id] waits for the element to be visible, in the
    given element or, without one, in the page; it clicks the element found
    and returns that same element, and on a timeout it raises
    [TimeoutException] without any click. *)
Theorem _click_element_by_id_behaviour self element_id driver timeout w :
  let ctx := match driver with Some e => Within e | None => Page end in
  let cond := visibility_of_element_located ID element_id in
  let r := drv_wait ctx timeout (_poll_frequency self) cond (browser w) in
  let waited := trace w ++ [EWait ctx timeout (_poll_frequency self) cond] in
  _click_element_by_id self element_id driver timeout w =
    match fst r with
    | Some element =>
        (Return element,
         World (drv_click element (snd r)) (files w) (waited ++ [EClick element]))
    | None => (Raise TimeoutException, World (snd r) (files w) waited)
    end.
Proof.
  intros ctx cond r waited.
  unfold _click_element_by_id, _find_element_by_id.
  change (driver_or_self driver) with ctx. fold cond.
  destruct (fst r) as [element|] eqn:E.
  - erewrite bind_Return by (apply wait_found; exact E).
    erewrite bind_Return by reflexivity. reflexivity.
  - erewrite bind_Raise by (apply wait_timed_out; exact E). reflexivity.
Qed.

(** ** Alert before second factor *)

(** X16. [check_alert] runs before [check_mfa] and its exception ends the
    call: when the marker is missing and the alert frame with its title and
    message is found, [refresh_token] raises that [AlertMessage] in the
    world [check_alert] left, so no wait for a form is made, whether the
    page has a form or not. *)
Theorem alert_precedes_mfa self username password restore w alert h4 label :
  fst (get self w) = Return tt ->
  let w1 := snd (login self username password (snd (get self w))) in
  let cond := presence_of_element_located TAG_NAME "portal-dashboard" in
  let r := drv_wait Page 1 (_poll_frequency self) cond (browser w1) in
  let wt := World (snd r) (files w1)
              (trace w1 ++ [EWait Page 1 (_poll_frequency self) cond]) in
  let ra := drv_wait Page 1 (_poll_frequency self)
              (presence_of_element_located ID "alertFrame") (browser wt) in
  let f1 := drv_find_css alert "div.a-alert-error > div.a-box-inner > h4" (snd ra) in
  let f2 := drv_find_css alert "div.a-alert-error > div.a-box-inner > div.gwt-Label"
              (snd f1) in
  fst r = None ->
  fst ra = Some alert -> fst f1 = Some h4 -> fst f2 = Some label ->
  refresh_token self username password restore w =
    (Raise (AlertMessage (drv_text h4 (snd f1) +:+ ": " +:+ drv_text label (snd f2))),
     snd (check_alert self wt)).
Proof.
  intros Hg w1 cond r wt ra f1 f2 En Ea E1 E2.
  rewrite (refresh_token_after_login _ _ _ _ _ Hg). fold w1.
  rewrite (classify_timeout self restore w1 wt) by (by apply get_token_timeout).
  pose proof (check_alert_raises self wt alert h4 label Ea E1 E2) as Hr.
  destruct (check_alert self wt) as [o wa] eqn:Eca. simpl in Hr. subst o.
  by erewrite bind_Raise by exact Eca.
Qed.

(** ** The context manager *)


(** ** One cache file per key *)

Lemma string_length_app (s1 s2 : string) :
  String.length (s1 +:+ s2) = String.length s1 + String.length s2.
Proof. induction s1 as [|a s1 IH]; simpl; [done | by rewrite IH]. Qed.

Lemma string_app_inj_r (s x y : string) : x +:+ s = y +:+ s -> x = y.
Proof.
  revert y. induction x as [|a x IH]; intros [|b y] E.
  - done.
  - apply (f_equal String.length) in E.
    rewrite !string_length_app in E. simpl in E. lia.
  - apply (f_equal String.length) in E.
    rewrite !string_length_app in E. simpl in E. lia.
  - injection E as -> E. f_equal. by apply IH.
Qed.

Section CacheFile.

Variable sha256_hexdigest : list Byte.byte -> string.

(** X15. With a cookie directory, the cache file is
    [<cookie_dir>/<key>.pkl], and two objects built for the same directory
    use the same file exactly when they have the same key. *)
Theorem one_cache_file_per_key (url1 username1 url2 username2 : string)
    (headless1 headless2 : bool) (cookie_dir : string) :
  cookie_dir ≠ "" ->
  let self1 := fst (__init__ (B:=B) sha256_hexdigest url1 username1 headless1
                      (Some cookie_dir)) in
  let self2 := fst (__init__ (B:=B) sha256_hexdigest url2 username2 headless2
                      (Some cookie_dir)) in
  _cookie_file self1 = Some (cookie_dir +:+ "/" +:+ _cookie_hash self1 +:+ ".pkl") ∧
  (_cookie_file self1 = _cookie_file self2 <-> _cookie_hash self1 = _cookie_hash self2).
Proof.
  intros Hne self1 self2.
  assert (F : ∀ url username headless,
    _cookie_file (fst (__init__ (B:=B) sha256_hexdigest url username headless
                         (Some cookie_dir))) =
    Some (cookie_dir +:+ "/" +:+
          _cookie_hash (fst (__init__ (B:=B) sha256_hexdigest url username headless
                               (Some cookie_dir))) +:+ ".pkl")).
  { intros. simpl. by rewrite bool_decide_eq_true_2. }
  split; [apply F|]. unfold self1, self2. rewrite !F. split.
  - intros E. injection E as E.
    apply String.app_inj in E. apply (String.app_inj "/") in E.
    by apply string_app_inj_r in E.
  - by intros ->.
Qed.

End CacheFile.

(** ** What never leaves [refresh_token] *)

Lemma get_token_outcome self restore w :
  (∃ wt, get_token self restore w = (Raise TimeoutException, wt)) ∨
  (∃ token, fst (get_token self restore w) = Return token) ∨
  fst (get_token self restore w) = Raise TypeError ∨
  (∃ key, fst (get_token self restore w) = Raise (KeyError key)).
Proof.
  destruct (fst (drv_wait Page 1 (_poll_frequency self)
                   (presence_of_element_located TAG_NAME "portal-dashboard")
                   (browser w))) as [marker|] eqn:E.
  - right. rewrite (get_token_marker self restore w) by (by rewrite E). simpl.
    unfold subscript_token. repeat case_match; eauto.
  - left. eexists. by apply get_token_timeout.
Qed.

Lemma classification_outcome self w :
  let out := fst ((check_alert self ;; check_mfa self ;; ret None
                   : M B (option (pyval * pyval))) w) in
  out = Return None ∨ (∃ msg, out = Raise (AlertMessage msg)) ∨
  (∃ form, out = Raise (MFACodeNeeded form)).
Proof.
  intros out. unfold out.
  destruct (check_alert self w) as [[[]|e] wa] eqn:Ea.
  - erewrite bind_Return by exact Ea.
    pose proof (check_mfa_behaviour self wa) as Hm. simpl in Hm.
    destruct (fst (drv_wait Page 1 (_poll_frequency self)
                     (presence_of_element_located TAG_NAME "form") (browser wa)))
      as [form|].
    + right. right. exists form. by erewrite bind_Raise by exact Hm.
    + left. by erewrite bind_Return by exact Hm.
  - right. left. erewrite bind_Raise by exact Ea. simpl.
    destruct (check_alert_outcome self w) as [Hr|[msg Hr]];
      rewrite Ea in Hr; simpl in Hr; [discriminate|].
    exists msg. congruence.
Qed.

(** X13. Once [get()] has returned, no timeout of a wait and no missing
    element leaves [refresh_token]: whatever the page shows, the call
    neither raises [TimeoutException] nor [NoSuchElementException]. *)
Theorem refresh_token_absorbs_timeouts self username password restore w :
  fst (get self w) = Return tt ->
  let out := fst (refresh_token self username password restore w) in
  out ≠ Raise TimeoutException ∧ out ≠ Raise NoSuchElementException.
Proof.
  intros Hg out. unfold out.
  rewrite (refresh_token_after_login _ _ _ _ _ Hg).
  set (w1 := snd (login self username password (snd (get self w)))).
  destruct (get_token_outcome self restore w1)
    as [[wt Et]|[[token Et]|[Et|[key Et]]]].
  - rewrite (classify_timeout self restore w1 wt Et).
    destruct (classification_outcome self wt) as [Ho|[[msg Ho]|[form Ho]]];
      simpl in Ho; rewrite Ho; split; discriminate.
  - rewrite classify_not_timeout by (by rewrite Et). simpl. rewrite Et.
    split; discriminate.
  - rewrite classify_not_timeout by (by rewrite Et). simpl. rewrite Et.
    split; discriminate.
  - rewrite classify_not_timeout by (by rewrite Et). simpl. rewrite Et.
    split; discriminate.
Qed.

End MoreFacts.

(** * The further properties on the simulated portal *)

Lemma get_token_without_cookie_witness :
  let cond := presence_of_element_located TAG_NAME "portal-dashboard" in
  (is_Some (fst (drv_wait Page 1 (_poll_frequency sim_self) cond
                   (browser sim_dashboard_bare))) ∧
   fst (get_token sim_self true sim_dashboard_bare) = Raise TypeError ∧
   trace (snd (get_token sim_self true sim_dashboard_bare)) =
     [EWait Page 1 (_poll_frequency sim_self) cond; EGet (_url sim_self);
      EGetCookies; EBack]) ∧
  (is_Some (fst (drv_wait Page 1 (_poll_frequency sim_self) cond
                   (browser sim_dashboard_session))) ∧
   fst (get_token sim_self false sim_dashboard_session) = Raise (KeyError "expiry")).
Proof.
  intros cond. split.
  - assert (Hm : is_Some (fst (drv_wait Page 1 (_poll_frequency sim_self) cond
                                 (browser sim_dashboard_bare)))) by (eexists; run).
    destruct (get_token_without_cookie sim_self true sim_dashboard_bare Hm)
      as (Hnone & _ & _ & Ht).
    split; [exact Hm|]. split; [apply Hnone; run | exact Ht].
  - assert (Hm : is_Some (fst (drv_wait Page 1 (_poll_frequency sim_self) cond
                                 (browser sim_dashboard_session)))) by (eexists; run).
    destruct (get_token_without_cookie sim_self false sim_dashboard_session Hm)
      as (_ & _ & Hexp & _).
    split; [exact Hm|].
    apply (Hexp (delete "expiry" sim_authn_cookie)); [run | eexists; run | run].
Defined.

Lemma refresh_token_passes_get_token_witness :
  let w1 := snd (login sim_self "alice" sim_password (snd (get sim_self sim_dashboard_bare))) in
  fst (get sim_self sim_dashboard_bare) = Return tt ∧
  fst (get_token sim_self false w1) ≠ Raise TimeoutException ∧
  fst (refresh_token sim_self "alice" sim_password false sim_dashboard_bare) =
    Raise TypeError.
Proof.
  intros w1.
  assert (Hg : fst (get sim_self sim_dashboard_bare) = Return tt) by run.
  assert (Hn : fst (get_token sim_self false w1) ≠ Raise TimeoutException)
    by (vm_compute; discriminate).
  split; [exact Hg|]. split; [exact Hn|].
  rewrite (refresh_token_passes_get_token sim_self "alice" sim_password false
             sim_dashboard_bare Hg Hn).
  run.
Defined.


Lemma no_cookie_dir_no_cache_witness :
  let self := fst (__init__ (B:=portal) sim_digest "https://portal.example/start"
                     "alice" true (Some "")) in
  _cookie_file self = None ∧
  fst (get self sim_corrupt) = Return tt ∧
  files (snd (close self sim_nameless)) = files sim_nameless ∧
  trace (snd (close self sim_nameless)) = [EQuit].
Proof.
  intros self.
  destruct (no_cookie_dir_no_cache sim_digest "https://portal.example/start" "alice"
              true (Some "") sim_corrupt (or_intror eq_refl)) as (Hf & Hg & _).
  destruct (no_cookie_dir_no_cache sim_digest "https://portal.example/start" "alice"
              true (Some "") sim_nameless (or_intror eq_refl)) as (_ & _ & Hc).
  fold self in Hf, Hg, Hc.
  split; [exact Hf|]. rewrite Hg, Hc. repeat split.
Defined.

Lemma close_stops_at_nameless_cookie_witness :
  _cookie_file sim_self = Some sim_cache_path ∧ sim_cache_path ≠ "" ∧
  ¬ Forall named (drv_get_cookies (browser sim_nameless)) ∧
  fst (close sim_self sim_nameless) = Raise (KeyError "name") ∧
  files (snd (close sim_self sim_nameless)) !! sim_cache_path = None ∧
  trace (snd (close sim_self sim_nameless)) = [EGetCookies].
Proof.
  assert (Hp : _cookie_file sim_self = Some sim_cache_path) by run.
  assert (Hne : sim_cache_path ≠ "") by discriminate.
  assert (Hn : ¬ Forall named (drv_get_cookies (browser sim_nameless))).
  { intros F. apply Forall_cons in F as [_ F]. apply Forall_cons in F as [[v F] _].
    vm_compute in F. discriminate. }
  split; [exact Hp|]. split; [exact Hne|]. split; [exact Hn|].
  rewrite (close_stops_at_nameless_cookie sim_self sim_nameless sim_cache_path Hp Hne Hn).
  repeat split.
Defined.

Lemma get_navigates_then_injects_witness :
  _cookie_file sim_self = Some sim_cache_path ∧ sim_cache_path ≠ "" ∧
  files sim_cached !! sim_cache_path =
    Some (Pickled [sim_user_cookie; sim_session_cookie]) ∧
  trace (snd (get sim_self sim_cached)) =
    [EGet (_url sim_self); EAddCookie (stripped sim_user_cookie);
     EAddCookie (stripped sim_session_cookie)].
Proof.
  assert (Hp : _cookie_file sim_self = Some sim_cache_path) by run.
  assert (Hne : sim_cache_path ≠ "") by discriminate.
  assert (Hf : files sim_cached !! sim_cache_path =
               Some (Pickled [sim_user_cookie; sim_session_cookie])) by run.
  split; [exact Hp|]. split; [exact Hne|]. split; [exact Hf|].
  rewrite (get_navigates_then_injects sim_self sim_cached sim_cache_path _ Hp Hne Hf).
  reflexivity.
Defined.

Lemma send_mfa_behaviour_witness :
  let c1 := visibility_of_element_located CSS_SELECTOR "input.awsui-input-type-number" in
  let c2 := visibility_of_element_located CSS_SELECTOR
              "button.awsui-button-variant-primary" in
  let poll := _poll_frequency sim_self in
  let stalled := sim_world (sim_at Stalled) ∅ in
  let half := World (B:=unit) tt ∅ [] in
  (fst (drv_wait (Within el_form) 10 poll c1 (browser stalled)) = None ∧
   fst (send_mfa sim_self el_form sim_code true stalled) = Raise TimeoutException ∧
   trace (snd (send_mfa sim_self el_form sim_code true stalled)) =
     [EWait (Within el_form) 10 poll c1]) ∧
  (is_Some (fst (drv_wait (Within el_form) 10 poll c1 (browser half))) ∧
   fst (send_mfa sim_self el_form sim_code true half) = Raise TimeoutException ∧
   trace (snd (send_mfa sim_self el_form sim_code true half)) =
     [EWait (Within el_form) 10 poll c1; EWait (Within el_form) 10 poll c2]) ∧
  (fst (send_mfa sim_self el_form sim_code true sim_mfa_prompt) = Return tt ∧
   trace (snd (send_mfa sim_self el_form sim_code true sim_mfa_prompt)) =
     [EWait (Within el_form) 10 poll c1; EWait (Within el_form) 10 poll c2;
      EClear el_code_input; ESendKeys el_code_input sim_code; EClick el_sign_in]).
Proof.
  intros c1 c2 poll stalled half. split; [|split].
  - assert (E1 : fst (drv_wait (Within el_form) 10 poll c1 (browser stalled)) = None)
      by run.
    split; [exact E1|].
    rewrite (proj1 (send_mfa_behaviour sim_self el_form sim_code true stalled) E1).
    split; reflexivity.
  - assert (E1 : is_Some (fst (drv_wait (Within el_form) 10 poll c1 (browser half))))
      by (eexists; run).
    split; [exact E1|].
    assert (E2 : fst (drv_wait (Within el_form) 10 poll c2
                        (snd (drv_wait (Within el_form) 10 poll c1 (browser half)))) =
                 None) by run.
    rewrite (proj1 (proj2 (send_mfa_behaviour sim_self el_form sim_code true half))
               E1 E2).
    split; reflexivity.
  - assert (E1 : fst (drv_wait (Within el_form) 10 poll c1 (browser sim_mfa_prompt)) =
                 Some el_code_input) by run.
    assert (E2 : fst (drv_wait (Within el_form) 10 poll c2
                        (snd (drv_wait (Within el_form) 10 poll c1
                                (browser sim_mfa_prompt)))) = Some el_sign_in) by run.
    rewrite (proj2 (proj2 (send_mfa_behaviour sim_self el_form sim_code true
                             sim_mfa_prompt)) el_code_input el_sign_in E1 E2).
    split; reflexivity.
Defined.


Lemma one_cache_file_per_key_witness :
  let url := "https://portal.example/start" in
  let alice := fst (__init__ (B:=portal) sim_digest url "alice" true (Some "/tmp/c")) in
  let bob := fst (__init__ (B:=portal) sim_digest url "bob" true (Some "/tmp/c")) in
  "/tmp/c" ≠ "" ∧
  _cookie_file alice = Some sim_cache_path ∧
  _cookie_hash alice ≠ _cookie_hash bob ∧
  _cookie_file alice ≠ _cookie_file bob.
Proof.
  intros url alice bob.
  assert (Hne : "/tmp/c" ≠ "") by discriminate.
  destruct (one_cache_file_per_key sim_digest url "alice" url "bob" true true
              "/tmp/c" Hne) as [Hf Hiff].
  fold alice bob in Hf, Hiff.
  assert (Hk : _cookie_hash alice ≠ _cookie_hash bob) by discriminate.
  split; [exact Hne|]. split; [etransitivity; [exact Hf | run]|]. split; [exact Hk|].
  intros E. apply Hk, Hiff, E.
Defined.

Lemma alert_precedes_mfa_witness :
  let w1 := snd (login sim_self "alice" "wrong" (snd (get sim_self sim_fresh))) in
  fst (get sim_self sim_fresh) = Return tt ∧
  fst (drv_wait Page 1 (_poll_frequency sim_self)
         (presence_of_element_located TAG_NAME "portal-dashboard") (browser w1)) = None ∧
  fst (refresh_token sim_self "alice" "wrong" true sim_fresh) =
    Raise (AlertMessage "Incorrect username or password.: Try again.") ∧
  last (trace (snd (refresh_token sim_self "alice" "wrong" true sim_fresh))) =
    Some (EText el_alert_label).
Proof.
  intros w1.
  assert (Hg : fst (get sim_self sim_fresh) = Return tt) by run.
  assert (En : fst (drv_wait Page 1 (_poll_frequency sim_self)
                      (presence_of_element_located TAG_NAME "portal-dashboard")
                      (browser w1)) = None) by run.
  split; [exact Hg|]. split; [exact En|].
  rewrite (alert_precedes_mfa sim_self "alice" "wrong" true sim_fresh
             el_alert_frame el_alert_title el_alert_label Hg En
             ltac:(run) ltac:(run) ltac:(run)).
  split; run.
Defined.

Lemma refresh_token_absorbs_timeouts_witness :
  let stalled := sim_world (sim_at Stalled) ∅ in
  let bare := sim_world (sim_at AlertFrameOnly) ∅ in
  (fst (get sim_self stalled) = Return tt ∧
   fst (refresh_token sim_self "alice" sim_password false stalled) ≠
     Raise TimeoutException) ∧
  (fst (get sim_self bare) = Return tt ∧
   fst (refresh_token sim_self "alice" sim_password false bare) ≠
     Raise NoSuchElementException).
Proof.
  intros stalled bare. split.
  - assert (Hg : fst (get sim_self stalled) = Return tt) by run.
    split; [exact Hg|].
    exact (proj1 (refresh_token_absorbs_timeouts sim_self "alice" sim_password false
                    stalled Hg)).
  - assert (Hg : fst (get sim_self bare) = Return tt) by run.
    split; [exact Hg|].
    exact (proj2 (refresh_token_absorbs_timeouts sim_self "alice" sim_password false
                    bare Hg)).
Defined.
